(** * Destination drivers: BigQuery and Xero

    A shallow embedding of the two destination drivers, [BigQueryDriver]
    and [XeroDriver], each with the lifecycle proxy its [getProxyDriver]
    returns, and of the JavaScript values they manipulate.

    - [Js]         : the fragment of JavaScript values and built-ins the
                     drivers rely on (template literals, property reads,
                     [Object.entries], [JSON.stringify], [split], ...).
    - [Effects]    : vendor requests, the event trace, the world that
                     answers, and the monad the asynchronous methods run in.
    - [BigQuery]   : [parseValue], [extractChangeset], the driver methods
                     and the proxy.
    - [Xero]       : [connect], [testConnection], [performAction] and the
                     proxy.
    - [Vocabulary] : what the statements are phrased with, and sample data.
    - the properties: [ParseValue], [BigQueryProps], [XeroProps],
      [ProxyProps], [Guards]; further ones in [BigQueryMore],
      [ParseValueMore], [BigQueryProxyMore], [XeroMore], [XeroProxyMore].

    Asynchronous functions are modelled by their sequential meaning: an
    awaited promise that rejects is a [Throw], one that resolves is an [Ok]. *)

From Stdlib Require Import ZArith String List Ascii Bool Lia DecimalString.
Import ListNotations.
Open Scope string_scope.
Set Warnings "-register-all".

(* ================================================================== *)
(** * JavaScript values *)
(* ================================================================== *)

Module Js.

(** Values.  Numbers are the integral ones below [10^21] in magnitude
    (those [Number::toString] renders in plain decimal); strings are
    sequences of one-byte characters;
    objects are association lists holding their own enumerable
    string-keyed properties in the order [Object.entries] yields them;
    [JError name message] is an instance of [Error] (or of a subclass such
    as [TypeError]) without further own properties. *)
Inductive JsValue : Type :=
| JUndefined
| JNull
| JBool (b : bool)
| JNum (n : Z)
| JStr (s : string)
| JArr (items : list JsValue)
| JObj (props : list (string * JsValue))
| JError (name message : string).

(** Outcome of evaluating an expression: a value, or a thrown value. *)
Inductive Res (A : Type) : Type :=
| Ok (a : A)
| Throw (e : JsValue).
Arguments Ok {A} a.
Arguments Throw {A} e.

Definition bind {A B} (m : Res A) (k : A -> Res B) : Res B :=
  match m with
  | Ok a => k a
  | Throw e => Throw e
  end.

Declare Scope res_scope.
Delimit Scope res_scope with res.
Notation "x <- m ;; k" := (bind m (fun x => k))
  (at level 100, m at next level, right associativity) : res_scope.

(** [Array.prototype.map] with a callback that may throw: the first
    callback that throws ends the traversal. *)
Fixpoint mapM {A B} (f : A -> Res B) (l : list A) : Res (list B) :=
  match l with
  | [] => Ok []
  | x :: l' =>
      match f x with
      | Throw e => Throw e
      | Ok y =>
          match mapM f l' with
          | Throw e => Throw e
          | Ok ys => Ok (y :: ys)
          end
      end
  end.

Definition Error (message : string) : JsValue := JError "Error" message.
Definition TypeError (message : string) : JsValue := JError "TypeError" message.

Definition nullish (v : JsValue) : bool :=
  match v with
  | JUndefined | JNull => true
  | _ => false
  end.

(** The double quote, the backslash and one-character strings. *)
Definition dq : string := String (ascii_of_nat 34) EmptyString.
Definition bs : string := String (ascii_of_nat 92) EmptyString.
Definition str1 (c : ascii) : string := String c EmptyString.

(** Decimal rendering of an integer: what [Number::toString] gives for an
    integer below [10^21] in magnitude.  From there on the engine prints
    the exponent form, which is not rendered here. *)
Definition decimal (n : Z) : string := NilZero.string_of_int (Z.to_int n).

Definition index_key (i : nat) : string := decimal (Z.of_nat i).

(** [Array.prototype.join] on an array of strings. *)
Definition join (sep : string) (parts : list string) : string :=
  String.concat sep parts.

(** [ToString], the conversion a template literal [`${v}`] applies. *)
Fixpoint ToString (v : JsValue) : string :=
  match v with
  | JUndefined => "undefined"
  | JNull => "null"
  | JBool true => "true"
  | JBool false => "false"
  | JNum n => decimal n
  | JStr s => s
  | JArr items =>
      join "," (map (fun x => if nullish x then EmptyString else ToString x) items)
  | JObj _ => "[object Object]"
  | JError name message =>
      if String.eqb message EmptyString then name else name ++ ": " ++ message
  end.

(** [Array.prototype.join] on an array of values. *)
Definition Array_join (sep : string) (items : list JsValue) : string :=
  join sep (map (fun x => if nullish x then EmptyString else ToString x) items).

(** [ToBoolean]. *)
Definition truthy (v : JsValue) : bool :=
  match v with
  | JUndefined | JNull => false
  | JBool b => b
  | JNum n => negb (Z.eqb n 0)
  | JStr s => negb (String.eqb s EmptyString)
  | _ => true
  end.

Fixpoint assoc (k : string) (props : list (string * JsValue)) : option JsValue :=
  match props with
  | [] => None
  | (k', v) :: rest => if String.eqb k' k then Some v else assoc k rest
  end.

(** Keys that are array indices: canonical decimal numerals below
    [2^32 - 1].  An object lists them first, in ascending order, and its
    other keys after them, in the order of their creation. *)
Definition is_digit (c : ascii) : bool :=
  let n := nat_of_ascii c in Nat.leb 48 n && Nat.leb n 57.

Definition digits_value (s : string) : Z :=
  fold_left (fun acc c => (acc * 10 + Z.of_nat (nat_of_ascii c - 48))%Z)
            (list_ascii_of_string s) 0%Z.

Definition array_index (k : string) : option Z :=
  match k with
  | EmptyString => None
  | String c rest =>
      if forallb is_digit (list_ascii_of_string k)
         && (negb (Ascii.eqb c "0") || String.eqb rest EmptyString)
         && Z.ltb (digits_value k) 4294967295
      then Some (digits_value k)
      else None
  end.

Fixpoint replace_value (k : string) (v : JsValue) (props : list (string * JsValue))
  : list (string * JsValue) :=
  match props with
  | [] => []
  | (k', v') :: rest =>
      if String.eqb k' k then (k', v) :: rest else (k', v') :: replace_value k v rest
  end.

Fixpoint insert_index (i : Z) (k : string) (v : JsValue)
         (props : list (string * JsValue)) : list (string * JsValue) :=
  match props with
  | [] => [(k, v)]
  | (k', v') :: rest =>
      match array_index k' with
      | Some j => if Z.ltb j i then (k', v') :: insert_index i k v rest
                  else (k, v) :: props
      | None => (k, v) :: props
      end
  end.

(** [o[k] = v] on an object made by a literal: an existing property keeps
    its place; a new one goes among the array indices when its key is one,
    and to the end otherwise.  The key [__proto__] reaches the setter the
    object inherits from [Object.prototype] and makes no own property;
    the change of prototype that setter makes for an object or [null] is
    not followed. *)
Definition assoc_set (k : string) (v : JsValue) (props : list (string * JsValue))
  : list (string * JsValue) :=
  if String.eqb k "__proto__" then props
  else
    match assoc k props with
    | Some _ => replace_value k v props
    | None =>
        match array_index k with
        | Some i => insert_index i k v props
        | None => props ++ [(k, v)]
        end
    end.

Fixpoint indexed_from {A} (i : nat) (l : list A) : list (string * A) :=
  match l with
  | [] => []
  | x :: l' => (index_key i, x) :: indexed_from (S i) l'
  end.

Definition chars (s : string) : list JsValue :=
  map (fun c => JStr (str1 c)) (list_ascii_of_string s).

Definition read_message (base : JsValue) (p : string) : string :=
  "Cannot read properties of " ++ ToString base ++ " (reading '" ++ p ++ "')".

(** The property read [base.p] / [base[p]]. *)
Definition get (base : JsValue) (p : string) : Res JsValue :=
  match base with
  | JUndefined | JNull => Throw (TypeError (read_message base p))
  | JBool _ | JNum _ => Ok JUndefined
  | JStr s =>
      if String.eqb p "length" then Ok (JNum (Z.of_nat (String.length s)))
      else match assoc p (indexed_from 0 (chars s)) with
           | Some c => Ok c
           | None => Ok JUndefined
           end
  | JArr items =>
      if String.eqb p "length" then Ok (JNum (Z.of_nat (List.length items)))
      else match assoc p (indexed_from 0 items) with
           | Some x => Ok x
           | None => Ok JUndefined
           end
  | JObj props =>
      match assoc p props with
      | Some x => Ok x
      | None => Ok JUndefined
      end
  | JError name message =>
      if String.eqb p "message" then Ok (JStr message)
      else if String.eqb p "name" then Ok (JStr name)
      else Ok JUndefined
  end.

(** How the message of a failed destructuring shows the value. *)
Definition shown (payload : JsValue) : string :=
  match payload with
  | JNull => "object null"
  | _ => ToString payload
  end.

(** Binding [p] out of a destructured parameter [{ ..., p, ... }]. *)
Definition destructure (payload : JsValue) (p : string) : Res JsValue :=
  if nullish payload then
    Throw (TypeError ("Cannot destructure property '" ++ p ++ "' of '"
                        ++ shown payload ++ "' as it is " ++ ToString payload ++ "."))
  else get payload p.

(** The function-valued members every object inherits: those of
    [Object.prototype], and [constructor]. *)
Definition inherited_functions : list string :=
  ["constructor"; "hasOwnProperty"; "isPrototypeOf"; "propertyIsEnumerable";
   "toLocaleString"; "toString"; "valueOf";
   "__defineGetter__"; "__defineSetter__"; "__lookupGetter__"; "__lookupSetter__"].

(** [Object.entries]. *)
Definition Object_entries (v : JsValue) : Res (list (string * JsValue)) :=
  match v with
  | JUndefined | JNull =>
      Throw (TypeError "Cannot convert undefined or null to object")
  | JBool _ | JNum _ | JError _ _ => Ok []
  | JStr s => Ok (indexed_from 0 (chars s))
  | JArr items => Ok (indexed_from 0 items)
  | JObj props => Ok props
  end.

(** ** Strings *)

(** [s.split(sep)] for a one-character separator. *)
Fixpoint split_on (sep : ascii) (s : string) : list string :=
  match s with
  | EmptyString => [EmptyString]
  | String c s' =>
      if Ascii.eqb c sep then EmptyString :: split_on sep s'
      else match split_on sep s' with
           | h :: t => String c h :: t
           | [] => [str1 c]
           end
  end.

(** White space and line terminators, as far as single bytes go. *)
Definition is_line_terminator (c : ascii) : bool :=
  let n := nat_of_ascii c in Nat.eqb n 10 || Nat.eqb n 13.

Definition is_space (c : ascii) : bool :=
  let n := nat_of_ascii c in
  Nat.eqb n 32 || (Nat.leb 9 n && Nat.leb n 13).

Fixpoint drop_spaces (l : list ascii) : list ascii :=
  match l with
  | c :: l' => if is_space c then drop_spaces l' else l
  | [] => []
  end.

(** [s.trim()] on text whose white space is ASCII: the characters U+0009
    to U+000D and U+0020 are stripped at both ends.  The spaces beyond
    ASCII that [trim] strips as well (U+00A0, U+FEFF and the like) take
    several bytes here and are left in place. *)
Definition trim (s : string) : string :=
  string_of_list_ascii
    (rev (drop_spaces (rev (drop_spaces (list_ascii_of_string s))))).

(** ** [JSON.stringify] *)

Definition hex_digit (n : nat) : ascii :=
  match n with
  | 0 => "0" | 1 => "1" | 2 => "2" | 3 => "3" | 4 => "4" | 5 => "5"
  | 6 => "6" | 7 => "7" | 8 => "8" | 9 => "9" | 10 => "a" | 11 => "b"
  | 12 => "c" | 13 => "d" | 14 => "e" | _ => "f"
  end%char.

Definition json_escape (c : ascii) : string :=
  let n := nat_of_ascii c in
  if Nat.eqb n 34 then bs ++ dq
  else if Nat.eqb n 92 then bs ++ bs
  else if Nat.eqb n 8 then bs ++ "b"
  else if Nat.eqb n 12 then bs ++ "f"
  else if Nat.eqb n 10 then bs ++ "n"
  else if Nat.eqb n 13 then bs ++ "r"
  else if Nat.eqb n 9 then bs ++ "t"
  else if Nat.ltb n 32 then
    bs ++ "u00" ++ str1 (hex_digit (n / 16)) ++ str1 (hex_digit (n mod 16))
  else str1 c.

Definition json_quote (s : string) : string :=
  dq ++ String.concat EmptyString (map json_escape (list_ascii_of_string s)) ++ dq.

(** [JSON.stringify v]; [None] stands for the result [undefined]. *)
Fixpoint JSON_stringify (v : JsValue) : option string :=
  match v with
  | JUndefined => None
  | JNull => Some "null"
  | JBool true => Some "true"
  | JBool false => Some "false"
  | JNum n => Some (decimal n)
  | JStr s => Some (json_quote s)
  | JArr items =>
      Some ("[" ++ join ","
              (map (fun x => match JSON_stringify x with
                             | Some t => t
                             | None => "null"
                             end) items) ++ "]")
  | JObj props =>
      Some ("{" ++ join ","
              (flat_map (fun kv => match JSON_stringify (snd kv) with
                                   | Some t => [json_quote (fst kv) ++ ":" ++ t]
                                   | None => []
                                   end) props) ++ "}")
  | JError _ _ => Some "{}"
  end.

(** [`${JSON.stringify(v)}`]. *)
Definition JSON_stringify_text (v : JsValue) : string :=
  match JSON_stringify v with
  | Some t => t
  | None => "undefined"
  end.

End Js.

(* ================================================================== *)
(** * Effects: vendor calls, console output, driver state *)
(* ================================================================== *)

Module Effects.
Import Js.

(** Calls that leave the process: BigQuery SDK requests, the HTTP request
    of [axios.get] and the methods of the Xero accounting API. *)
Inductive Request : Type :=
| BQ_query (sql : string)
| BQ_table_get (dataset table : JsValue)
| BQ_table_insert (dataset table data options : JsValue)
| BQ_table_getMetadata (dataset table : JsValue)
| BQ_table_query (dataset table : JsValue) (sql : string)
| Axios_get (url : string) (config : JsValue)
| Xero_accounting (method : string) (args : list JsValue).

(** What a run leaves behind, oldest first.  [Invoke] is ghost
    instrumentation: the lifecycle proxies record each driver method they
    call, so that the order of the calls can be stated. *)
Inductive Event : Type :=
| Remote (r : Request)
| ConsoleLog (args : list JsValue)
| Invoke (method : string) (args : list JsValue).

(** Field schema of a BigQuery table ([ITableFieldSchema]): every member
    is optional in the vendor's declaration. *)
Inductive ITableFieldSchema : Type :=
| FieldSchema (name : option string) (type : option string)
              (fields : option (list ITableFieldSchema)).

Definition fs_name (f : ITableFieldSchema) : option string :=
  match f with FieldSchema n _ _ => n end.

(** [TableSchema]. *)
Record TableSchema : Type := { ts_fields : option (list ITableFieldSchema) }.

(** First element of the array [table.getMetadata()] resolves to. *)
Record TableMetadata : Type := { schema : option TableSchema }.

(** Everything the drivers do not decide themselves.  A vendor call is
    answered from the events so far and the request; [JSON_parse] is the
    runtime's [JSON.parse]; [accounting_source name] is the source text
    [Function.prototype.toString] gives for the member [name] of the
    client's [accountingApi] when that member is a function;
    [table_handle dataset table] is [client.dataset(dataset).table(table)],
    which builds a handle without any request, or throws (the vendor
    refuses a dataset id that is not a string); [inherited_call name arg]
    is what calling the inherited member [name] on a driver with the one
    argument [arg] returns or throws. *)
Record World : Type := {
  respond : list Event -> Request -> Res JsValue;
  metadata : list Event -> JsValue -> JsValue -> Res TableMetadata;
  JSON_parse : string -> Res JsValue;
  accounting_source : string -> option string;
  table_handle : JsValue -> JsValue -> Res unit;
  inherited_call : string -> JsValue -> Res JsValue
}.

(** Driver object [this] and trace. *)
Record St (D : Type) : Type := { this : D; trace : list Event }.
Arguments this {D} s.
Arguments trace {D} s.
Arguments Build_St {D} this trace.

Definition M (D A : Type) : Type := St D -> Res A * St D.

Section Monad.
Context {D : Type}.

Definition ret {A} (a : A) : M D A := fun s => (Ok a, s).

Definition throw {A} (e : JsValue) : M D A := fun s => (Throw e, s).

Definition mbind {A B} (m : M D A) (k : A -> M D B) : M D B :=
  fun s =>
    match m s with
    | (Ok a, s') => k a s'
    | (Throw e, s') => (Throw e, s')
    end.

(** [try { body } catch (err) { handler }]. *)
Definition try_catch {A} (body : M D A) (handler : JsValue -> M D A) : M D A :=
  fun s =>
    match body s with
    | (Ok a, s') => (Ok a, s')
    | (Throw e, s') => handler e s'
    end.

(** A pure expression that may throw. *)
Definition lift {A} (r : Res A) : M D A := fun s => (r, s).

Definition emit (e : Event) : M D unit :=
  fun s => (Ok tt, Build_St (this s) (trace s ++ [e])).

Definition console_log (args : list JsValue) : M D unit := emit (ConsoleLog args).

Definition get_this : M D D := fun s => (Ok (this s), s).

Definition set_this (d : D) : M D unit := fun s => (Ok tt, Build_St d (trace s)).

(** An awaited vendor call. *)
Definition request (W : World) (r : Request) : M D JsValue :=
  fun s => (respond W (trace s) r, Build_St (this s) (trace s ++ [Remote r])).

Definition request_metadata (W : World) (dataset table : JsValue) : M D TableMetadata :=
  fun s => (metadata W (trace s) dataset table,
            Build_St (this s) (trace s ++ [Remote (BQ_table_getMetadata dataset table)])).

(** A driver method called by a proxy. *)
Definition invoke {A} (method : string) (args : list JsValue) (m : M D A) : M D A :=
  fun s => m (Build_St (this s) (trace s ++ [Invoke method args])).
End Monad.

Declare Scope eff_scope.
Delimit Scope eff_scope with eff.
Notation "x <- m ;; k" := (mbind m (fun x => k))
  (at level 100, m at next level, right associativity) : eff_scope.
Notation "m ;;; k" := (mbind m (fun _ => k))
  (at level 100, right associativity) : eff_scope.

End Effects.

(* ================================================================== *)
(** * The BigQuery driver *)
(* ================================================================== *)

Module BigQuery.
Import Js Effects.

Definition nl : string := String (ascii_of_nat 10) EmptyString.
Definition bt : string := String (ascii_of_nat 96) EmptyString.

(** ** Schema-directed rendering of values *)

(** [case "A": case "B": ...] of the [switch] over [fieldSchema.type]. *)
Definition one_of (type : option string) (labels : list string) : bool :=
  match type with
  | Some t => existsb (String.eqb t) labels
  | None => false
  end.

(** [`${fieldSchema.type}`]. *)
Definition type_text (type : option string) : string :=
  match type with
  | Some t => t
  | None => "undefined"
  end.

(** [(f) => f.name === k]. *)
Definition name_is (k : string) (f : ITableFieldSchema) : bool :=
  match fs_name f with
  | Some n => String.eqb n k
  | None => false
  end.

Local Open Scope res_scope.

(** [BigQueryDriver.parseValue].  The recursion of the RECORD case goes
    through [fieldSchema.fields.find(...)]: the inner [find_parse] is that
    search, applying [parseValue] to the element it stops at, and
    [parseValue(v, undefined)] (nothing found) fails on [fieldSchema.type]. *)
Fixpoint parseValue (value : JsValue) (fieldSchema : ITableFieldSchema)
  {struct fieldSchema} : Res string :=
  match fieldSchema with
  | FieldSchema _ type fields =>
      if one_of type ["INTEGER"; "FLOAT"; "NUMERIC"; "BIGNUMERIC"; "BOOLEAN"] then
        Ok (ToString value)
      else if one_of type ["STRING"; "DATE"; "TIME"; "DATETIME"; "GEOGRAPHY"] then
        Ok (dq ++ ToString value ++ dq)
      else if one_of type ["TIMESTAMP"] then
        Ok ("timestamp(" ++ dq ++ ToString value ++ dq ++ ")")
      else if one_of type ["JSON"] then
        Ok ("JSON '" ++ JSON_stringify_text value ++ "'")
      else if one_of type ["BYTES"] then
        Ok ("CAST(" ++ dq ++ ToString value ++ dq ++ " as BYTES)")
      else if one_of type ["RECORD"] then
        entries <- Object_entries value ;;
        values <- mapM (fun kv =>
                    match fields with
                    | None => Throw (TypeError (read_message JUndefined "find"))
                    | Some fl =>
                        (fix find_parse (l : list ITableFieldSchema) : Res string :=
                           match l with
                           | [] => Throw (TypeError (read_message JUndefined "type"))
                           | f :: l' =>
                               if name_is (fst kv) f then parseValue (snd kv) f
                               else find_parse l'
                           end) fl
                    end) entries ;;
        Ok ("STRUCT(" ++ join "," values ++ ")")
      else
        Throw (Error ("Unknown type: " ++ type_text type))
  end.

(** [fields.find((f) => f.name === k)] on a possibly missing array. *)
Definition find_field (fields : option (list ITableFieldSchema)) (k : string)
  : Res (option ITableFieldSchema) :=
  match fields with
  | None => Throw (TypeError (read_message JUndefined "find"))
  | Some fl => Ok (find (name_is k) fl)
  end.

(** [parseValue(v, schema)] where [schema] is what [find] returned. *)
Definition parseValue_found (v : JsValue) (schema : option ITableFieldSchema)
  : Res string :=
  match schema with
  | None => Throw (TypeError (read_message JUndefined "type"))
  | Some f => parseValue v f
  end.

(** [BigQueryDriver.extractChangeset]. *)
Definition extractChangeset (set : JsValue) (schema : option TableSchema) : Res string :=
  match set with
  | JStr s => Ok s
  | JArr items => Ok (Array_join "," items)
  | _ =>
      entries <- Object_entries set ;;
      changeset <- mapM (fun kv =>
                     let query := fst kv ++ "=" in
                     keySchema <- match schema with
                                  | None => Throw (TypeError (read_message JUndefined "fields"))
                                  | Some sc => find_field (ts_fields sc) (fst kv)
                                  end ;;
                     match keySchema with
                     | None => Throw (Error "Schema-altering update")
                     | Some ks =>
                         rendered <- parseValue (snd kv) ks ;;
                         Ok (query ++ rendered)
                     end) entries ;;
      Ok (join "," changeset)
  end.

Local Close Scope res_scope.

(** ** The driver object *)

(** The vendor handle [new BigQuery({ projectId, credentials })]. *)
Record Client : Type := { projectId : JsValue; credentials : JsValue }.

Record BigQueryDriver : Type := {
  GOOGLE_SERVICE_ACCOUNT_KEY : JsValue;
  client : option Client;
  GCP_PROJECT_ID : JsValue
}.

Definition with_client (d : BigQueryDriver) (c : option Client) : BigQueryDriver :=
  {| GOOGLE_SERVICE_ACCOUNT_KEY := GOOGLE_SERVICE_ACCOUNT_KEY d;
     client := c;
     GCP_PROJECT_ID := GCP_PROJECT_ID d |}.

(** [new BigQueryDriver(config)]. *)
Definition constructor (config : JsValue) : Res BigQueryDriver :=
  bind (destructure config "GOOGLE_SERVICE_ACCOUNT_KEY") (fun key =>
  bind (destructure config "GCP_PROJECT_ID") (fun project =>
  Ok {| GOOGLE_SERVICE_ACCOUNT_KEY := key; client := None; GCP_PROJECT_ID := project |})).

Definition not_established : JsValue := Error "Connection to BigQuery not established".

Definition sample_query : string :=
  "SELECT name" ++ nl ++
  "      FROM " ++ bt ++ "bigquery-public-data.usa_names.usa_1910_2013" ++ bt ++ nl ++
  "      WHERE state = 'TX'" ++ nl ++
  "      LIMIT 1".

(** [`${this.GCP_PROJECT_ID}.${dataset}.${table}`]. *)
Definition table_path (d : BigQueryDriver) (dataset table : JsValue) : string :=
  ToString (GCP_PROJECT_ID d) ++ "." ++ ToString dataset ++ "." ++ ToString table.

Definition test_result (success : bool) (message : string) : JsValue :=
  JObj [("success", JBool success); ("message", JStr message)].

(** An asynchronous method of the driver. *)
Definition Act : Type := M BigQueryDriver JsValue.

Section Driver.
Variable W : World.

Local Open Scope eff_scope.

(** The outcome of [m] as a value: the shape of a [try] whose [catch]
    returns from the enclosing function. *)
Definition attempt {A} (m : M BigQueryDriver A) : M BigQueryDriver (Res A) :=
  fun s => let (r, s') := m s in (Ok r, s').

Definition connect (config : JsValue) : Act :=
  d <- get_this ;;
  override <- lift (if truthy config
                    then get config "GOOGLE_SERVICE_ACCOUNT_KEY"
                    else Ok config) ;;
  saKey <- lift (if truthy override
                 then JSON_parse W (ToString override)
                 else JSON_parse W (ToString (GOOGLE_SERVICE_ACCOUNT_KEY d))) ;;
  set_this (with_client d (Some {| projectId := GCP_PROJECT_ID d;
                                   credentials := saKey |})) ;;;
  ret JUndefined.

Definition disconnect : Act :=
  d <- get_this ;;
  set_this (with_client d None) ;;;
  ret JUndefined.

Definition testConnection : Act :=
  d <- get_this ;;
  match client d with
  | None => throw not_established
  | Some _ =>
      response <- request W (BQ_query sample_query) ;;
      if negb (truthy response)
      then ret (test_result false "Could not establish connection to BigQuery")
      else ret (test_result true "Connection established successfully")
  end.

Definition insertData (payload : JsValue) : Act :=
  dataset <- lift (destructure payload "dataset") ;;
  table <- lift (destructure payload "table") ;;
  data <- lift (destructure payload "data") ;;
  options <- lift (destructure payload "options") ;;
  d <- get_this ;;
  match client d with
  | None => throw not_established
  | Some _ =>
      lift (table_handle W dataset table) ;;;
      exists_ <- attempt (request W (BQ_table_get dataset table)) ;;
      match exists_ with
      | Throw _ =>
          console_log [JStr ("table " ++ bt ++ table_path d dataset table ++ bt
                               ++ " not found")] ;;;
          ret JNull
      | Ok _ =>
          try_catch
            (request W (BQ_table_insert dataset table data options))
            (fun _ => console_log [JStr "Schema-altering action"] ;;; ret JNull)
      end
  end.

(** [!filters || !filters.length]. *)
Definition no_filters (filters : JsValue) : bool :=
  if negb (truthy filters) then true
  else match get filters "length" with
       | Ok len => negb (truthy len)
       | Throw _ => false
       end.

Definition updateData (payload : JsValue) : Act :=
  dataset <- lift (destructure payload "dataset") ;;
  table <- lift (destructure payload "table") ;;
  filters <- lift (destructure payload "filters") ;;
  set <- lift (destructure payload "set") ;;
  d <- get_this ;;
  match client d with
  | None => throw not_established
  | Some _ =>
      if no_filters filters
      then throw (Error "BigQuery UPDATE must have a WHERE clause")
      else
        lift (table_handle W dataset table) ;;;
        meta <- request_metadata W dataset table ;;
        changeset <- lift (extractChangeset set (schema meta)) ;;
        let updateQuery :=
          "UPDATE " ++ bt ++ table_path d dataset table ++ bt ++ nl ++
          "      SET " ++ changeset ++ nl ++
          "      WHERE " ++ ToString filters ++ nl ++
          "    " in
        request W (BQ_table_query dataset table updateQuery)
  end.

Definition deleteData (payload : JsValue) : Act :=
  dataset <- lift (destructure payload "dataset") ;;
  table <- lift (destructure payload "table") ;;
  filters <- lift (destructure payload "filters") ;;
  d <- get_this ;;
  match client d with
  | None => throw not_established
  | Some _ =>
      if no_filters filters
      then throw (Error "BigQuery DELETE must have a WHERE clause")
      else
        let deleteQuery :=
          "DELETE FROM " ++ bt ++ table_path d dataset table ++ bt ++ nl ++
          "        WHERE " ++ ToString filters ++ nl ++
          "    " in
        lift (table_handle W dataset table) ;;;
        request W (BQ_table_query dataset table deleteQuery) ;;;
        ret JUndefined
  end.

(** ** The lifecycle proxy *)

(** [driver[prop]] when it is a function: the methods of the class and
    the function members the driver inherits. *)
Definition method (prop : string) : option (JsValue -> Act) :=
  if String.eqb prop "connect" then Some connect
  else if String.eqb prop "disconnect" then Some (fun _ => disconnect)
  else if String.eqb prop "testConnection" then Some (fun _ => testConnection)
  else if String.eqb prop "insertData" then Some insertData
  else if String.eqb prop "updateData" then Some updateData
  else if String.eqb prop "deleteData" then Some deleteData
  else if existsb (String.eqb prop) inherited_functions
  then Some (fun payload => lift (inherited_call W prop payload))
  else None.

(** The [async (payload) => { try { ... } catch (err) { ... } }] the
    [get] trap returns. *)
Definition lifecycle (prop : string) (action : JsValue -> Act) (payload : JsValue) : Act :=
  try_catch
    (invoke "connect" [] (connect JUndefined) ;;;
     result <- invoke prop [payload] (action payload) ;;
     invoke "disconnect" [] disconnect ;;;
     ret result)
    (fun err =>
       console_log [JStr "Error occurred ===> "; err] ;;;
       throw err).

(** The [get] trap of the proxy. *)
Definition proxy_get (prop : string) : Res (JsValue -> Act) :=
  match method prop with
  | Some action => Ok (lifecycle prop action)
  | None => Throw (Error ("Method " ++ prop ++ " not found"))
  end.

(** [proxy[prop](payload)]. *)
Definition proxy_call (prop : string) (payload : JsValue) : Act :=
  match proxy_get prop with
  | Ok f => f payload
  | Throw e => throw e
  end.

(** [getProxyDriver(config)]: the driver the proxy wraps, not yet
    connected, and the [get] trap. *)
Definition getProxyDriver (config : JsValue)
  : Res (St BigQueryDriver * (string -> Res (JsValue -> Act))) :=
  bind (constructor config) (fun driver =>
  Ok ({| this := driver; trace := [] |}, proxy_get)).
End Driver.

End BigQuery.

(* ================================================================== *)
(** * The Xero driver *)
(* ================================================================== *)

Module Xero.
Import Js Effects.

(** The vendor handle: the options given to [new XeroClient] and the
    token set installed by [setTokenSet]. *)
Record XeroClient : Type := {
  clientId : JsValue;
  clientSecret : JsValue;
  redirectUris : list JsValue;
  scopes : JsValue;
  httpTimeout : Z;
  tokenSet : JsValue
}.

(** The handle with [t] as its token set. *)
Definition with_tokenSet (c : XeroClient) (t : JsValue) : XeroClient :=
  {| clientId := clientId c; clientSecret := clientSecret c;
     redirectUris := redirectUris c; scopes := scopes c;
     httpTimeout := httpTimeout c; tokenSet := t |}.

(** The access token the vendor finds in a token set: the member
    [access_token] of its own copy of it, [undefined] when there is none. *)
Definition access_token_of (t : JsValue) : JsValue :=
  if nullish t then JUndefined
  else match get t "access_token" with
       | Ok v => v
       | Throw _ => JUndefined
       end.

(** [client.setTokenSet(tokenSet)]: the vendor keeps the token set and
    then throws when its access token is [undefined].  The result is the
    handle as the call leaves it, and how the call ends. *)
Definition setTokenSet (c : XeroClient) (t : JsValue) : XeroClient * Res unit :=
  (with_tokenSet c t,
   match access_token_of t with
   | JUndefined => Throw (Error "Access token is undefined!")
   | _ => Ok tt
   end).

(** The field [client]: never assigned, [null], or a handle. *)
Inductive ClientField : Type :=
| client_undefined
| client_null
| client_of (c : XeroClient).

Record XeroDriver : Type := {
  client : ClientField;
  tenantIds : option (list JsValue);
  XERO_CLIENT_ID : JsValue;
  XERO_CLIENT_SECRET : JsValue
}.

Definition update (d : XeroDriver) (c : ClientField) (t : option (list JsValue))
  : XeroDriver :=
  {| client := c; tenantIds := t;
     XERO_CLIENT_ID := XERO_CLIENT_ID d;
     XERO_CLIENT_SECRET := XERO_CLIENT_SECRET d |}.

(** [new XeroDriver(config)]. *)
Definition constructor (config : JsValue) : Res XeroDriver :=
  bind (destructure config "XERO_CLIENT_ID") (fun id =>
  bind (destructure config "XERO_CLIENT_SECRET") (fun secret =>
  Ok {| client := client_undefined; tenantIds := None;
        XERO_CLIENT_ID := id; XERO_CLIENT_SECRET := secret |})).

Definition Act : Type := M XeroDriver JsValue.

(** [this.client.accountingApi]: fails on a missing handle. *)
Definition accountingApi (c : ClientField) : Res XeroClient :=
  match c with
  | client_undefined => Throw (TypeError (read_message JUndefined "accountingApi"))
  | client_null => Throw (TypeError (read_message JNull "accountingApi"))
  | client_of h => Ok h
  end.

(** [a || b]. *)
Definition or_else (a b : JsValue) : JsValue := if truthy a then a else b.

(** ** Parameter names read off a function's source text *)

(** [.*?\)] at the head of [l]: the characters before the nearest
    closing parenthesis of the line. *)
Fixpoint until_close (l : list ascii) : option (list ascii) :=
  match l with
  | [] => None
  | c :: l' =>
      if Ascii.eqb c ")" then Some []
      else if is_line_terminator c then None
      else option_map (cons c) (until_close l')
  end.

(** First match of [/\((.*?)\)/]: its capture group. *)
Fixpoint match_signature (l : list ascii) : option (list ascii) :=
  match l with
  | [] => None
  | c :: l' =>
      if Ascii.eqb c "(" then
        match until_close l' with
        | Some captured => Some captured
        | None => match_signature l'
        end
      else match_signature l'
  end.

(** The capture group of the first match in the source text, or the
    empty string, split at the commas, each part trimmed. *)
Definition methodParams_of (source : string) : list string :=
  let captured :=
    match match_signature (list_ascii_of_string source) with
    | Some l => string_of_list_ascii l
    | None => EmptyString
    end in
  map trim (split_on "," captured).

Definition connections_url : string := "https://api.xero.com/connections".

Definition test_result (success : bool) (message : string) : JsValue :=
  JObj [("success", JBool success); ("message", JStr message)].

Section Driver.
Variable W : World.

Local Open Scope eff_scope.

Definition connect (config : JsValue) : Act :=
  d <- get_this ;;
  id <- lift (get config "XERO_CLIENT_ID") ;;
  secret <- lift (get config "XERO_CLIENT_SECRET") ;;
  oauth2 <- lift (get config "oauth2") ;;
  redirectUri <- lift (get oauth2 "redirectUri") ;;
  scopes_ <- lift (get oauth2 "scopes") ;;
  let created := {| clientId := or_else id (XERO_CLIENT_ID d);
                    clientSecret := or_else secret (XERO_CLIENT_SECRET d);
                    redirectUris := [redirectUri];
                    scopes := scopes_;
                    httpTimeout := 3000;
                    tokenSet := JUndefined |} in
  set_this (update d (client_of created) (tenantIds d)) ;;;
  resolved <- lift (get oauth2 "resolved") ;;
  let handle := fst (setTokenSet created resolved) in
  set_this (update d (client_of handle) (tenantIds d)) ;;;
  lift (snd (setTokenSet created resolved)) ;;;
  access_token <- lift (get resolved "access_token") ;;
  response <- request W
                (Axios_get connections_url
                   (JObj [("headers",
                           JObj [("Content-Type", JStr "application/json");
                                 ("Authorization",
                                  JStr ("Bearer " ++ ToString access_token))])])) ;;
  data <- lift (get response "data") ;;
  ids <- lift (match data with
               | JArr items => mapM (fun item => get item "tenantId") items
               | JUndefined | JNull => Throw (TypeError (read_message data "map"))
               | _ => Throw (TypeError "response.data.map is not a function")
               end) ;;
  set_this (update d (client_of handle) (Some ids)) ;;;
  ret JUndefined.

Definition disconnect : Act :=
  d <- get_this ;;
  set_this (update d client_null (Some [])) ;;;
  ret JUndefined.

(** [this.client.accountingApi[name](...args)]. *)
Definition call_accounting (name : string) (args : list JsValue) : Act :=
  d <- get_this ;;
  lift (accountingApi (client d)) ;;;
  match accounting_source W name with
  | None => throw (TypeError ("this.client.accountingApi." ++ name ++ " is not a function"))
  | Some _ => request W (Xero_accounting name args)
  end.

Definition testConnection : Act :=
  try_catch
    (d <- get_this ;;
     lift (accountingApi (client d)) ;;;
     first <- lift (match tenantIds d with
                    | None => Throw (TypeError (read_message JUndefined "0"))
                    | Some ids => Ok (hd JUndefined ids)
                    end) ;;
     call_accounting "getAccounts" [first] ;;;
     ret (test_result true "Connection established successfully"))
    (fun _ => ret (test_result false "Could not establish connection to Xero")).

(** Body of [for (const tenantId of this.tenantIds)]. *)
Fixpoint fan_out (method : string) (methodParams : list string) (params : JsValue)
         (ids : list JsValue) (responses : list (string * JsValue))
  : M XeroDriver (list (string * JsValue)) :=
  match ids with
  | [] => ret responses
  | tenantId :: rest =>
      args <- lift (mapM (fun param =>
                            if String.eqb param "xeroTenantId" then Ok tenantId
                            else get params param) methodParams) ;;
      entry <- try_catch
                 (result <- call_accounting method args ;;
                  lift (get result "body"))
                 (fun err => lift (get err "response")) ;;
      fan_out method methodParams params rest
              (assoc_set (ToString tenantId) entry responses)
  end.

Definition performAction (prop params : JsValue) : Act :=
  name <- lift (if nullish prop
                then Throw (TypeError (read_message prop "toString"))
                else Ok (ToString prop)) ;;
  let parts := split_on "." name in
  let api := hd EmptyString parts in
  let method := match tl parts with
                | m :: _ => m
                | [] => "undefined"
                end in
  if String.eqb api "accounting" then
    d <- get_this ;;
    lift (accountingApi (client d)) ;;;
    match accounting_source W method with
    | None => throw (Error ("Method " ++ ToString prop ++ "() for Xero not found"))
    | Some source =>
        let methodParams := methodParams_of source in
        match tenantIds d with
        | None => throw (TypeError "this.tenantIds is not iterable")
        | Some ids =>
            responses <- fan_out method methodParams params ids [] ;;
            ret (JObj responses)
        end
    end
  else throw (Error ("API " ++ api ++ " for Xero not found")).
End Driver.

(** ** The lifecycle proxy *)

(** What reading a property of the proxy gives: one of the two state
    fields, or the asynchronous function of two arguments. *)
Inductive Member : Type :=
| TenantIds (ids : option (list JsValue))
| TheClient (c : ClientField)
| Callable (f : JsValue -> JsValue -> Act).

(** [typeof target[prop] === "function"]: the methods of the class and
    the function members the driver inherits. *)
Definition is_method (prop : string) : bool :=
  existsb (String.eqb prop)
          (["connect"; "disconnect"; "testConnection"; "performAction"]
             ++ inherited_functions)%list.

Section Proxy.
Variable W : World.
Variable config : JsValue.

Local Open Scope eff_scope.

(** The [try { ... } catch (err) { ... }] of the returned function. *)
Definition lifecycle (payload params : JsValue) : Act :=
  try_catch
    (invoke "connect" [or_else config payload] (connect W (or_else config payload)) ;;;
     result <- invoke "performAction" [payload; params]
                 (performAction W payload params) ;;
     invoke "disconnect" [] (disconnect) ;;;
     ret result)
    (fun err =>
       console_log [JStr "Error occurred ===> "; err] ;;;
       throw err).

(** [async (payload, params) => { ... }]. *)
Definition proxy_fn (prop : string) (payload params : JsValue) : Act :=
  if String.eqb prop "connect" then connect W (or_else payload config)
  else if String.eqb prop "disconnect" then disconnect
  else if String.eqb prop "testConnection" then testConnection W
  else lifecycle payload params.

(** The [get] trap of the proxy. *)
Definition proxy_get (target : XeroDriver) (prop : string) : Res Member :=
  if String.eqb prop "tenantIds" then Ok (TenantIds (tenantIds target))
  else if String.eqb prop "client" then Ok (TheClient (client target))
  else if negb (is_method prop) then
    Throw (Error ("Method " ++ prop ++ "() not found"))
  else Ok (Callable (proxy_fn prop)).
End Proxy.

(** [getProxyDriver(config)]: the driver the proxy wraps, not yet
    connected, and the [get] trap. *)
Definition getProxyDriver (W : World) (config : JsValue)
  : Res (St XeroDriver * (XeroDriver -> string -> Res Member)) :=
  bind (constructor config) (fun driver =>
  Ok ({| this := driver; trace := [] |}, proxy_get W config)).

End Xero.

(* ================================================================== *)
(** * Vocabulary of the statements *)
(* ================================================================== *)

Module Vocabulary.
Import Js Effects.

(** ** Field types *)




(** ** Sample data *)

Definition sample_record : JsValue := JObj [("a", JNum 1); ("b", JStr "x")].

Definition sample_record_fields : list ITableFieldSchema :=
  [FieldSchema (Some "b") (Some "STRING") None;
   FieldSchema (Some "a") (Some "INTEGER") None].

Definition sample_schema : TableSchema :=
  {| ts_fields := Some [FieldSchema (Some "id") (Some "INTEGER") None;
                        FieldSchema (Some "span") (Some "INTERVAL") None;
                        FieldSchema (Some "label") (Some "STRING") None] |}.

Definition getAccounts_source : string :=
  "getAccounts(xeroTenantId, ifModifiedSince, where, order, options = { headers: {} }) {".

Definition sample_tenants : JsValue :=
  JArr [JObj [("tenantId", JStr "t1")]; JObj [("tenantId", JStr "t2")];
        JObj [("tenantId", JStr "t3")]].

(** A world in which every vendor call succeeds. *)
Definition sample_world : World :=
  {| respond := fun _ r =>
       match r with
       | Axios_get _ _ => Ok (JObj [("data", sample_tenants)])
       | Xero_accounting _ _ => Ok (JObj [("body", JStr "accounts")])
       | _ => Ok (JArr [JArr []])
       end;
     metadata := fun _ _ _ => Ok {| schema := Some sample_schema |};
     JSON_parse := fun _ => Ok (JObj [("client_email", JStr "sa@example.com")]);
     accounting_source := fun name =>
       if String.eqb name "getAccounts" then Some getAccounts_source else None;
     table_handle := fun dataset _ =>
       match dataset with
       | JStr _ => Ok tt
       | _ => Throw (TypeError "A dataset ID is required.")
       end;
     inherited_call := fun name _ =>
       if String.eqb name "toString" || String.eqb name "toLocaleString"
       then Ok (JStr "[object Object]")
       else if String.eqb name "constructor"
       then Throw (TypeError "Class constructor cannot be invoked without 'new'")
       else Ok JUndefined |}.

(** The same world, except that the listed requests reject with [e]. *)
Definition rejecting (e : JsValue) (rejected : Request -> bool) : World :=
  {| respond := fun h r => if rejected r then Throw e else respond sample_world h r;
     metadata := fun h d t =>
       if rejected (BQ_table_getMetadata d t) then Throw e
       else metadata sample_world h d t;
     JSON_parse := JSON_parse sample_world;
     accounting_source := accounting_source sample_world;
     table_handle := table_handle sample_world;
     inherited_call := inherited_call sample_world |}.

(** An error as the vendor SDKs reject with: it carries a response. *)
Definition vendor_error (status : Z) : JsValue :=
  JObj [("response", JObj [("statusCode", JNum status)]);
        ("body", JStr "rejected")].

Definition bigquery_driver (c : option BigQuery.Client) : BigQuery.BigQueryDriver :=
  {| BigQuery.GOOGLE_SERVICE_ACCOUNT_KEY := JStr "{}";
     BigQuery.client := c;
     BigQuery.GCP_PROJECT_ID := JStr "proj" |}.

Definition bigquery_client : BigQuery.Client :=
  {| BigQuery.projectId := JStr "proj"; BigQuery.credentials := JObj [] |}.

Definition connected_bigquery : St BigQuery.BigQueryDriver :=
  {| this := bigquery_driver (Some bigquery_client); trace := [] |}.

Definition disconnected_bigquery : St BigQuery.BigQueryDriver :=
  {| this := bigquery_driver None; trace := [] |}.

Definition xero_driver (c : Xero.ClientField) (ids : option (list JsValue))
  : Xero.XeroDriver :=
  {| Xero.client := c; Xero.tenantIds := ids;
     Xero.XERO_CLIENT_ID := JStr "id"; Xero.XERO_CLIENT_SECRET := JStr "secret" |}.

Definition xero_client : Xero.XeroClient :=
  {| Xero.clientId := JStr "id"; Xero.clientSecret := JStr "secret";
     Xero.redirectUris := [JStr "https://example.com/cb"];
     Xero.scopes := JStr "accounting.transactions";
     Xero.httpTimeout := 3000;
     Xero.tokenSet := JObj [("access_token", JStr "tok")] |}.

Definition connected_xero : St Xero.XeroDriver :=
  {| this := xero_driver (Xero.client_of xero_client)
                         (Some [JStr "t1"; JStr "t2"; JStr "t3"]);
     trace := [] |}.

Definition disconnected_xero : St Xero.XeroDriver :=
  {| this := xero_driver Xero.client_null (Some []); trace := [] |}.

Definition xero_config : JsValue :=
  JObj [("oauth2", JObj [("redirectUri", JStr "https://example.com/cb");
                         ("scopes", JStr "accounting.transactions");
                         ("resolved", JObj [("access_token", JStr "tok")])])].

Definition insert_payload : JsValue :=
  JObj [("dataset", JStr "ds"); ("table", JStr "tb");
        ("data", JArr [JObj [("id", JNum 1)]]); ("options", JUndefined)].

Definition is_table_get (r : Request) : bool :=
  match r with BQ_table_get _ _ => true | _ => false end.

Definition is_table_insert (r : Request) : bool :=
  match r with BQ_table_insert _ _ _ _ => true | _ => false end.

Definition is_query (r : Request) : bool :=
  match r with BQ_query _ => true | _ => false end.

Definition update_payload (set : JsValue) : JsValue :=
  JObj [("dataset", JStr "ds"); ("table", JStr "tb");
        ("filters", JStr "id = 1"); ("set", set)].

(** The callback of [extractChangeset] on one entry of a mapping, for a
    schema whose fields are [fl]. *)
Definition changeset_entry (fl : list ITableFieldSchema) (kv : string * JsValue)
  : Res string :=
  match find (BigQuery.name_is (fst kv)) fl with
  | None => Throw (Error "Schema-altering update")
  | Some ks =>
      bind (BigQuery.parseValue (snd kv) ks)
           (fun rendered => Ok ((fst kv ++ "=") ++ rendered))
  end.

(** A world in which the accounting calls for tenant [t2] are rejected. *)
Definition second_tenant_fails : World :=
  rejecting (vendor_error 500)
            (fun r => match r with
                      | Xero_accounting _ (JStr "t2" :: _) => true
                      | _ => false
                      end).

(** ** The tenant fan-out *)

(** The positional arguments rebuilt for one tenant, [params] being an
    object. *)
Definition args_for (methodParams : list string) (params tenantId : JsValue)
  : list JsValue :=
  map (fun param =>
         if String.eqb param "xeroTenantId" then tenantId
         else match get params param with
              | Ok v => v
              | Throw _ => JUndefined
              end) methodParams.

(** The call sent for one tenant. *)
Definition tenant_call (method : string) (methodParams : list string)
           (params tenantId : JsValue) : Request :=
  Xero_accounting method (args_for methodParams params tenantId).

(** What is stored for a tenant whose call was answered by [answer]. *)
Definition entry_of (answer : Res JsValue) : JsValue :=
  match answer with
  | Ok v => match get v "body" with
            | Ok body => body
            | Throw _ => JUndefined
            end
  | Throw e => match get e "response" with
               | Ok response => response
               | Throw _ => JUndefined
               end
  end.

(** The answers of the world to [calls] sent one after the other, the
    events so far being [h]. *)
Fixpoint answers (W : World) (h : list Event) (calls : list Request)
  : list (Res JsValue) :=
  match calls with
  | [] => []
  | r :: rest => respond W h r :: answers W (h ++ [Remote r]) rest
  end.

Definition no_dot (name : string) : bool :=
  forallb (fun c => negb (Ascii.eqb c ".")) (list_ascii_of_string name).

(** ** Reading traces *)

(** The driver methods a proxy called, oldest first. *)
Definition invocations (t : list Event) : list (string * list JsValue) :=
  flat_map (fun e => match e with
                     | Invoke method args => [(method, args)]
                     | _ => []
                     end) t.

(** The state in which a method called by a proxy starts. *)
Definition called {D} (method : string) (args : list JsValue) (s : St D) : St D :=
  {| this := this s; trace := trace s ++ [Invoke method args] |}.

(** The state after the proxy has logged [e]. *)
Definition logged {D} (e : JsValue) (s : St D) : St D :=
  {| this := this s;
     trace := trace s ++ [ConsoleLog [JStr "Error occurred ===> "; e]] |}.

(** [outcome] is a run, from [s], of the lifecycle around [act]: either
    connect, action and disconnect all ran, in that order, each from the
    state the previous one left, and the result is the action's; or the
    first of connect and action to throw ended the run, its error logged
    once and thrown on, with no call of disconnect. *)
Definition lifecycle_run {D} (conn : M D JsValue) (cargs : list JsValue)
           (aname : string) (aargs : list JsValue) (act disc : M D JsValue)
           (s : St D) (outcome : Res JsValue * St D) : Prop :=
  match outcome with
  | (Ok r, s') =>
      exists u s1 s2 u',
        conn (called "connect" cargs s) = (Ok u, s1) /\
        act (called aname aargs s1) = (Ok r, s2) /\
        disc (called "disconnect" [] s2) = (Ok u', s') /\
        invocations (trace s')
        = (invocations (trace s)
             ++ [("connect", cargs); (aname, aargs); ("disconnect", [])])%list
  | (Throw e, s') =>
      (exists s1,
          conn (called "connect" cargs s) = (Throw e, s1) /\
          s' = logged e s1 /\
          invocations (trace s')
          = (invocations (trace s) ++ [("connect", cargs)])%list)
      \/
      (exists u s1 s2,
          conn (called "connect" cargs s) = (Ok u, s1) /\
          act (called aname aargs s1) = (Throw e, s2) /\
          s' = logged e s2 /\
          invocations (trace s')
          = (invocations (trace s) ++ [("connect", cargs); (aname, aargs)])%list)
  end.

(** [m] records no method call of its own. *)
Definition silent {D A} (m : M D A) : Prop :=
  forall s, invocations (trace (snd (m s))) = invocations (trace s).

(** ** Recognising errors *)

Fixpoint contains (needle s : string) : bool :=
  if String.prefix needle s then true
  else match s with
       | EmptyString => false
       | String _ s' => contains needle s'
       end.

(** An [Error] whose message says that the connection is not established. *)
Definition says_not_established (e : JsValue) : bool :=
  match e with
  | JError _ message => contains "not established" message
  | _ => false
  end.

(** ** Frames and wire texts *)

(** [m] leaves the driver object as it found it, whatever its outcome. *)
Definition keeps_driver {D A} (m : M D A) : Prop :=
  forall s, this (snd (m s)) = this s.



(** [key=rendering], entry by entry. *)
Fixpoint assignments (entries : list (string * JsValue)) (rendered : list string)
  : list string :=
  match entries, rendered with
  | kv :: entries', r :: rendered' => ((fst kv ++ "=") ++ r) :: assignments entries' rendered'
  | _, _ => []
  end.

(** The TypeError of destructuring a missing payload. *)
Definition no_payload_error (payload : JsValue) : JsValue :=
  TypeError ("Cannot destructure property 'dataset' of '" ++ shown payload
               ++ "' as it is " ++ ToString payload ++ ".").

(** The six methods of [BigQueryDriver]. *)
Definition bigquery_methods : list string :=
  ["connect"; "disconnect"; "testConnection"; "insertData"; "updateData"; "deleteData"].

(** ** The Xero connection *)

(** [item.tenantId] of an item of the connections response. *)
Definition tenant_of (item : JsValue) : JsValue :=
  match get item "tenantId" with
  | Ok v => v
  | Throw _ => JUndefined
  end.

(** The tenant discovery request for a token set. *)
Definition connections_request (access_token : JsValue) : Request :=
  Axios_get Xero.connections_url
            (JObj [("headers",
                    JObj [("Content-Type", JStr "application/json");
                          ("Authorization", JStr ("Bearer " ++ ToString access_token))])]).

(** The handle [connect] builds. *)
Definition xero_handle (d : Xero.XeroDriver) (id secret redirectUri scopes_ token : JsValue)
  : Xero.XeroClient :=
  {| Xero.clientId := Xero.or_else id (Xero.XERO_CLIENT_ID d);
     Xero.clientSecret := Xero.or_else secret (Xero.XERO_CLIENT_SECRET d);
     Xero.redirectUris := [redirectUri];
     Xero.scopes := scopes_;
     Xero.httpTimeout := 3000;
     Xero.tokenSet := token |}.

Definition is_axios (r : Request) : bool :=
  match r with Axios_get _ _ => true | _ => false end.

Definition is_accounting (r : Request) : bool :=
  match r with Xero_accounting _ _ => true | _ => false end.


(** A world whose accounting calls reject with [undefined]. *)
Definition rejects_with_undefined : World :=
  rejecting JUndefined is_accounting.

(** The first parameter name that is not the tenant id. *)
Definition first_named_param (methodParams : list string) : option string :=
  find (fun param => negb (String.eqb param "xeroTenantId")) methodParams.

Definition no_char (c : ascii) (s : string) : bool :=
  forallb (fun x => negb (Ascii.eqb x c)) (list_ascii_of_string s).

Definition one_line (s : string) : bool :=
  forallb (fun x => negb (is_line_terminator x)) (list_ascii_of_string s).

End Vocabulary.

(* ================================================================== *)
(** * Properties *)
(* ================================================================== *)

Import Js Effects.

(** ** Traversals that may throw *)

Section MapM.
Context {A B : Type}.

Lemma mapM_ext (f g : A -> Res B) (l : list A) :
  (forall x, In x l -> f x = g x) -> mapM f l = mapM g l.
Proof.
  induction l as [|x l IH]; intros Hfg; simpl; [reflexivity|].
  rewrite (Hfg x (or_introl eq_refl)), IH; [reflexivity|].
  intros y Hy. apply Hfg. now right.
Qed.

Lemma mapM_Forall2 (f : A -> Res B) (l : list A) (ys : list B) :
  Forall2 (fun x y => f x = Ok y) l ys -> mapM f l = Ok ys.
Proof.
  induction 1 as [|x y l ys Hx _ IH]; simpl; [reflexivity|].
  now rewrite Hx, IH.
Qed.

Lemma mapM_first_failure (f : A -> Res B) (pre post : list A) (x : A)
      (ys : list B) (e : JsValue) :
  Forall2 (fun a y => f a = Ok y) pre ys ->
  f x = Throw e ->
  mapM f (pre ++ x :: post) = Throw e.
Proof.
  induction 1 as [|a y pre ys Ha _ IH]; intros Hx; simpl.
  - now rewrite Hx.
  - now rewrite Ha, IH.
Qed.

Lemma mapM_failure (f : A -> Res B) (l : list A) (x : A) (e : JsValue) :
  In x l -> f x = Throw e -> exists e', mapM f l = Throw e'.
Proof.
  induction l as [|a l IH]; intros Hin Hx; [contradiction|].
  simpl. destruct (f a) as [y|ea] eqn:Ha; [|eauto].
  destruct Hin as [->|Hin]; [congruence|].
  destruct (IH Hin Hx) as [e' ->]. eauto.
Qed.
End MapM.

(** ** [parseValue] *)

Module ParseValue.
Import BigQuery Vocabulary.


(** The search-and-recurse loop of the RECORD case is [find] followed by
    the recursive call. *)
Lemma find_parse_eq (k : string) (v : JsValue) (fl : list ITableFieldSchema) :
  (fix find_parse (l : list ITableFieldSchema) : Res string :=
     match l with
     | [] => Throw (TypeError (read_message JUndefined "type"))
     | f :: l' => if name_is k f then parseValue v f else find_parse l'
     end) fl
  = parseValue_found v (find (name_is k) fl).
Proof.
  induction fl as [|f fl IH]; simpl; [reflexivity|].
  destruct (name_is k f); [reflexivity | exact IH].
Qed.

(** The RECORD case as the source writes it. *)
Lemma parseValue_RECORD (value : JsValue) (name : option string)
      (fields : option (list ITableFieldSchema)) :
  parseValue value (FieldSchema name (Some "RECORD") fields)
  = bind (Object_entries value) (fun entries =>
    bind (mapM (fun kv =>
                  bind (find_field fields (fst kv)) (fun schema =>
                  parseValue_found (snd kv) schema)) entries) (fun values =>
    Ok ("STRUCT(" ++ join "," values ++ ")"))).
Proof.
  simpl. destruct (Object_entries value) as [entries|e]; simpl; [|reflexivity].
  match goal with
  | |- bind (mapM ?F entries) _ = bind (mapM ?G entries) _ =>
      rewrite (mapM_ext F G entries); [reflexivity|]
  end.
  intros [k v] _. simpl.
  destruct fields as [fl|]; simpl; [apply find_parse_eq | reflexivity].
Qed.




(** C2 (amended): for a value whose own entries are [entries] and a RECORD
    field schema listing the sub-fields [fl], if every entry's key names a
    sub-field of [fl] and the entry's value renders to [r] under that
    sub-field's schema, [parseValue] returns [STRUCT(r1,...,rn)]: the
    renderings alone, without field names, separated by commas, in the
    order of the value's own keys. *)
Theorem parseValue_record_struct
        (value : JsValue) (name : option string) (fl : list ITableFieldSchema)
        (entries : list (string * JsValue)) (rendered : list string) :
  Object_entries value = Ok entries ->
  Forall2 (fun kv r => exists f, find (name_is (fst kv)) fl = Some f /\
                                 parseValue (snd kv) f = Ok r)
          entries rendered ->
  parseValue value (FieldSchema name (Some "RECORD") (Some fl))
  = Ok ("STRUCT(" ++ join "," rendered ++ ")").
Proof.
  intros Hentries Hall. rewrite parseValue_RECORD, Hentries. simpl.
  rewrite (mapM_Forall2 _ entries rendered); [reflexivity|].
  clear Hentries.
  induction Hall as [|kv r entries' rendered' [f [Hf Hr]] _ IH]; constructor.
  - now rewrite Hf.
  - exact IH.
Qed.

Lemma parseValue_record_struct_witness :
  parseValue sample_record
             (FieldSchema (Some "r") (Some "RECORD") (Some sample_record_fields))
  = Ok ("STRUCT(" ++ join "," ["1"; dq ++ "x" ++ dq] ++ ")").
Proof.
  apply (parseValue_record_struct sample_record (Some "r") sample_record_fields
           [("a", JNum 1); ("b", JStr "x")] ["1"; dq ++ "x" ++ dq]).
  - reflexivity.
  - repeat constructor.
    + exists (FieldSchema (Some "a") (Some "INTEGER") None). split; reflexivity.
    + exists (FieldSchema (Some "b") (Some "STRING") None). split; reflexivity.
Defined.

(** C2, as stated, fails: the components carry no [field=] prefix. *)
Lemma parseValue_record_counterexample :
  parseValue sample_record
             (FieldSchema (Some "r") (Some "RECORD") (Some sample_record_fields))
  = Ok ("STRUCT(1," ++ dq ++ "x" ++ dq ++ ")") /\
  parseValue sample_record
             (FieldSchema (Some "r") (Some "RECORD") (Some sample_record_fields))
  <> Ok ("STRUCT(a=1,b=" ++ dq ++ "x" ++ dq ++ ")").
Proof.
  split; [reflexivity | discriminate].
Qed.

End ParseValue.

(** ** Property reads *)

Lemma get_total (v : JsValue) (p : string) :
  nullish v = false -> exists x, get v p = Ok x.
Proof.
  intros Hv. destruct v; try discriminate Hv; simpl.
  - eauto.
  - eauto.
  - destruct (String.eqb p "length"); [eauto|].
    destruct (assoc p (indexed_from 0 (chars s))); eauto.
  - destruct (String.eqb p "length"); [eauto|].
    destruct (assoc p (indexed_from 0 items)); eauto.
  - destruct (assoc p props); eauto.
  - destruct (String.eqb p "message"); [eauto|].
    destruct (String.eqb p "name"); eauto.
Qed.

Lemma destructure_get (payload : JsValue) (p : string) :
  nullish payload = false -> destructure payload p = get payload p.
Proof.
  intros H. unfold destructure. now rewrite H.
Qed.

(** Unfolds the plumbing of the effect monad. *)
Ltac run_eff :=
  cbv beta iota delta [mbind lift ret throw try_catch emit console_log get_this
                       set_this request request_metadata invoke].

(** ** Methods record no calls of their own *)

Section Silent.
Context {D : Type}.
Import Vocabulary.

Lemma invocations_app (a b : list Event) :
  invocations (a ++ b) = (invocations a ++ invocations b)%list.
Proof. apply flat_map_app. Qed.

Lemma silent_ret {A} (a : A) : silent (D := D) (ret a).
Proof. intros s. reflexivity. Qed.

Lemma silent_throw {A} (e : JsValue) : silent (D := D) (A := A) (throw e).
Proof. intros s. reflexivity. Qed.

Lemma silent_lift {A} (r : Res A) : silent (D := D) (lift r).
Proof. intros s. reflexivity. Qed.

Lemma silent_get_this : silent (D := D) get_this.
Proof. intros s. reflexivity. Qed.

Lemma silent_set_this (d : D) : silent (set_this d).
Proof. intros s. reflexivity. Qed.

Lemma silent_console_log (args : list JsValue) : silent (D := D) (console_log args).
Proof.
  intros s. unfold console_log, emit. simpl.
  rewrite invocations_app. simpl. apply app_nil_r.
Qed.

Lemma silent_request (W : World) (r : Request) : silent (D := D) (request W r).
Proof.
  intros s. unfold request. simpl.
  rewrite invocations_app. simpl. apply app_nil_r.
Qed.

Lemma silent_request_metadata (W : World) (dataset table : JsValue) :
  silent (D := D) (request_metadata W dataset table).
Proof.
  intros s. unfold request_metadata. simpl.
  rewrite invocations_app. simpl. apply app_nil_r.
Qed.

Lemma silent_bind {A B} (m : M D A) (k : A -> M D B) :
  silent m -> (forall a, silent (k a)) -> silent (mbind m k).
Proof.
  intros Hm Hk s. unfold mbind. specialize (Hm s).
  destruct (m s) as [[a|e] s1]; simpl in *.
  - now rewrite (Hk a s1).
  - exact Hm.
Qed.

Lemma silent_try_catch {A} (body : M D A) (handler : JsValue -> M D A) :
  silent body -> (forall e, silent (handler e)) -> silent (try_catch body handler).
Proof.
  intros Hb Hh s. unfold try_catch. specialize (Hb s).
  destruct (body s) as [[a|e] s1]; simpl in *.
  - exact Hb.
  - now rewrite (Hh e s1).
Qed.
End Silent.

(** Decomposes a method into the steps above. *)
Ltac silent_step :=
  match goal with
  | |- Vocabulary.silent (ret _) => apply silent_ret
  | |- Vocabulary.silent (throw _) => apply silent_throw
  | |- Vocabulary.silent (lift _) => apply silent_lift
  | |- Vocabulary.silent get_this => apply silent_get_this
  | |- Vocabulary.silent (set_this _) => apply silent_set_this
  | |- Vocabulary.silent (console_log _) => apply silent_console_log
  | |- Vocabulary.silent (request _ _) => apply silent_request
  | |- Vocabulary.silent (request_metadata _ _ _) => apply silent_request_metadata
  | |- Vocabulary.silent (mbind _ _) => apply silent_bind; [|intros ?]
  | |- Vocabulary.silent (try_catch _ _) => apply silent_try_catch; [|intros ?]
  | |- Vocabulary.silent (match ?x with _ => _ end) => destruct x
  | |- Vocabulary.silent (if ?b then _ else _) => destruct b
  end.

Ltac silent_steps := repeat silent_step.

(** ** The lifecycle around an action *)

Section Lifecycle.
Context {D : Type}.
Import Vocabulary.
Variables (conn act disc : M D JsValue).
Variables (cargs aargs : list JsValue) (aname : string).

Hypothesis conn_silent : silent conn.
Hypothesis act_silent : silent act.
Hypothesis disc_returns : forall s, exists u d, disc s = (Ok u, Build_St d (trace s)).

Lemma invocations_called (method : string) (args : list JsValue) (s : St D) :
  invocations (trace (called method args s))
  = (invocations (trace s) ++ [(method, args)])%list.
Proof. unfold called. simpl. now rewrite invocations_app. Qed.

Lemma invocations_logged (e : JsValue) (s : St D) :
  invocations (trace (logged e s)) = invocations (trace s).
Proof.
  unfold logged. simpl. rewrite invocations_app. simpl. apply app_nil_r.
Qed.

Lemma lifecycle_shape (s : St D) :
  lifecycle_run conn cargs aname aargs act disc s
    (try_catch
       (mbind (invoke "connect" cargs conn) (fun _ =>
        mbind (invoke aname aargs act) (fun result =>
        mbind (invoke "disconnect" [] disc) (fun _ =>
        ret result))))
       (fun err => mbind (console_log [JStr "Error occurred ===> "; err])
                         (fun _ => throw err))
       s).
Proof.
  unfold try_catch, mbind, invoke, console_log, emit, throw, ret.
  fold (called "connect" cargs s).
  pose proof (conn_silent (called "connect" cargs s)) as Hc.
  rewrite invocations_called in Hc.
  destruct (conn (called "connect" cargs s)) as [[u|e] s1] eqn:Econn; simpl in Hc.
  - fold (called aname aargs s1).
    pose proof (act_silent (called aname aargs s1)) as Ha.
    rewrite invocations_called, Hc in Ha.
    destruct (act (called aname aargs s1)) as [[r|e] s2] eqn:Eact; simpl in Ha.
    + fold (called "disconnect" [] s2).
      destruct (disc_returns (called "disconnect" [] s2)) as [u' [d Hd]].
      rewrite Hd. simpl.
      exists u, s1, s2, u'.
      split; [exact Econn|]. split; [exact Eact|]. split; [exact Hd|].
      rewrite invocations_app. simpl. rewrite Ha.
      rewrite <- !app_assoc. reflexivity.
    + simpl. right. exists u, s1, s2.
      split; [exact Econn|]. split; [exact Eact|]. split; [reflexivity|].
      change (invocations (trace (logged e s2))
              = (invocations (trace s) ++ [("connect", cargs); (aname, aargs)])%list).
      rewrite invocations_logged, Ha, <- app_assoc. reflexivity.
  - simpl. left. exists s1.
    split; [exact Econn|]. split; [reflexivity|].
    change (invocations (trace (logged e s1))
            = (invocations (trace s) ++ [("connect", cargs)])%list).
    rewrite invocations_logged. exact Hc.
Qed.
End Lifecycle.

(** ** The BigQuery driver *)

Module BigQueryProps.
Import BigQuery Vocabulary.

(** Binds the destructured members of a payload that is an object. *)
Ltac bind_members payload Hpayload :=
  rewrite ?(destructure_get payload _ Hpayload);
  repeat match goal with
         | |- context [get payload ?p] =>
             let x := fresh "member" in
             let E := fresh "E" in
             destruct (get_total payload p Hpayload) as [x E];
             rewrite E; clear E
         end.

(** C6: on a connected driver, [updateData] and [deleteData] called with
    undefined, empty-string or empty-array [filters] throw the error that
    names the missing WHERE clause and leave driver and trace untouched:
    neither the schema fetch nor the query is attempted. *)
Theorem update_delete_require_filters
        (W : World) (s : St BigQueryDriver) (c : Client) (payload filters : JsValue) :
  client (this s) = Some c ->
  nullish payload = false ->
  get payload "filters" = Ok filters ->
  In filters [JUndefined; JStr EmptyString; JArr []] ->
  updateData W payload s
  = (Throw (Error "BigQuery UPDATE must have a WHERE clause"), s) /\
  deleteData W payload s
  = (Throw (Error "BigQuery DELETE must have a WHERE clause"), s).
Proof.
  intros Hclient Hpayload Hfilters Hempty.
  assert (Hno : no_filters filters = true).
  { simpl in Hempty. destruct Hempty as [<-|[<-|[<-|[]]]]; reflexivity. }
  unfold updateData, deleteData, mbind, lift, get_this, throw.
  rewrite !(destructure_get payload _ Hpayload), Hfilters.
  destruct (get_total payload "dataset" Hpayload) as [dataset ->].
  destruct (get_total payload "table" Hpayload) as [table ->].
  destruct (get_total payload "set" Hpayload) as [set ->].
  rewrite Hclient, Hno. split; reflexivity.
Qed.

Lemma update_delete_require_filters_witness :
  updateData sample_world
             (JObj [("dataset", JStr "ds"); ("table", JStr "tb");
                    ("filters", JStr EmptyString); ("set", JStr "a=1")])
             connected_bigquery
  = (Throw (Error "BigQuery UPDATE must have a WHERE clause"), connected_bigquery) /\
  deleteData sample_world
             (JObj [("dataset", JStr "ds"); ("table", JStr "tb");
                    ("filters", JStr EmptyString); ("set", JStr "a=1")])
             connected_bigquery
  = (Throw (Error "BigQuery DELETE must have a WHERE clause"), connected_bigquery).
Proof.
  apply (update_delete_require_filters sample_world connected_bigquery
           bigquery_client _ (JStr EmptyString)).
  - reflexivity.
  - reflexivity.
  - reflexivity.
  - simpl. tauto.
Defined.

(** C8: on a connected driver, the table handle built, when the
    existence check [table.get()] rejects, [insertData] logs that the table was not found and returns
    [null]; when the check passes and [table.insert] rejects, it logs
    [Schema-altering action] and returns [null].  Neither error is thrown. *)
Theorem insertData_returns_null
        (W : World) (s : St BigQueryDriver) (c : Client)
        (payload dataset table data options : JsValue) :
  client (this s) = Some c ->
  nullish payload = false ->
  get payload "dataset" = Ok dataset ->
  get payload "table" = Ok table ->
  get payload "data" = Ok data ->
  get payload "options" = Ok options ->
  table_handle W dataset table = Ok tt ->
  let checked := (trace s ++ [Remote (BQ_table_get dataset table)])%list in
  (forall e,
     respond W (trace s) (BQ_table_get dataset table) = Throw e ->
     insertData W payload s
     = (Ok JNull,
        {| this := this s;
           trace := checked ++
                    [ConsoleLog [JStr ("table " ++ bt ++ table_path (this s) dataset table
                                         ++ bt ++ " not found")]] |})) /\
  (forall found e,
     respond W (trace s) (BQ_table_get dataset table) = Ok found ->
     respond W checked (BQ_table_insert dataset table data options) = Throw e ->
     insertData W payload s
     = (Ok JNull,
        {| this := this s;
           trace := (checked ++ [Remote (BQ_table_insert dataset table data options)])
                    ++ [ConsoleLog [JStr "Schema-altering action"]] |})).
Proof.
  intros Hclient Hpayload Hd Ht Hda Ho Hhandle checked. subst checked.
  split.
  - intros e Hget.
    unfold insertData, mbind, lift, get_this, attempt, request, console_log, emit, ret.
    rewrite !(destructure_get payload _ Hpayload), Hd, Ht, Hda, Ho, Hclient, Hhandle.
    simpl. rewrite Hget. reflexivity.
  - intros found e Hget Hinsert.
    unfold insertData, mbind, lift, get_this, attempt, request, try_catch,
      console_log, emit, ret.
    rewrite !(destructure_get payload _ Hpayload), Hd, Ht, Hda, Ho, Hclient, Hhandle.
    simpl. rewrite Hget. simpl. rewrite Hinsert. reflexivity.
Qed.

Lemma insertData_returns_null_witness :
  insertData (rejecting (vendor_error 404) is_table_get) insert_payload connected_bigquery
  = (Ok JNull,
     {| this := this connected_bigquery;
        trace := [Remote (BQ_table_get (JStr "ds") (JStr "tb"));
                  ConsoleLog [JStr ("table " ++ bt ++ "proj.ds.tb" ++ bt ++ " not found")]] |})
  /\
  insertData (rejecting (vendor_error 400) is_table_insert) insert_payload connected_bigquery
  = (Ok JNull,
     {| this := this connected_bigquery;
        trace := [Remote (BQ_table_get (JStr "ds") (JStr "tb"));
                  Remote (BQ_table_insert (JStr "ds") (JStr "tb")
                            (JArr [JObj [("id", JNum 1)]]) JUndefined);
                  ConsoleLog [JStr "Schema-altering action"]] |}).
Proof.
  split.
  - apply (proj1 (insertData_returns_null
                    (rejecting (vendor_error 404) is_table_get) connected_bigquery
                    bigquery_client insert_payload (JStr "ds") (JStr "tb")
                    (JArr [JObj [("id", JNum 1)]]) JUndefined
                    eq_refl eq_refl eq_refl eq_refl eq_refl eq_refl eq_refl)
             (vendor_error 404)).
    reflexivity.
  - apply (proj2 (insertData_returns_null
                    (rejecting (vendor_error 400) is_table_insert) connected_bigquery
                    bigquery_client insert_payload (JStr "ds") (JStr "tb")
                    (JArr [JObj [("id", JNum 1)]]) JUndefined
                    eq_refl eq_refl eq_refl eq_refl eq_refl eq_refl eq_refl)
             (JArr [JArr []]) (vendor_error 400)).
    + reflexivity.
    + reflexivity.
Defined.

(** What [testConnection] does when the sample query is answered. *)
Lemma testConnection_query_outcome
      (W : World) (s : St BigQueryDriver) (c : Client) :
  client (this s) = Some c ->
  let asked := {| this := this s;
                  trace := trace s ++ [Remote (BQ_query sample_query)] |} in
  testConnection W s
  = match respond W (trace s) (BQ_query sample_query) with
    | Throw e => (Throw e, asked)
    | Ok response =>
        if truthy response
        then (Ok (test_result true "Connection established successfully"), asked)
        else (Ok (test_result false "Could not establish connection to BigQuery"), asked)
    end.
Proof.
  intros Hclient asked. subst asked.
  unfold testConnection, mbind, get_this, request, ret. rewrite Hclient.
  destruct (respond W (trace s) (BQ_query sample_query)) as [response|e];
    [|reflexivity].
  destruct (truthy response); reflexivity.
Qed.

(** C9 on the BigQuery driver: connected, with a world whose sample query
    is rejected, [testConnection] throws the rejection itself and returns
    no [{ success, message }] result. *)
Theorem testConnection_throws_on_query_failure :
  testConnection (rejecting (vendor_error 403) is_query) connected_bigquery
  = (Throw (vendor_error 403),
     {| this := this connected_bigquery;
        trace := [Remote (BQ_query sample_query)] |}).
Proof.
  reflexivity.
Qed.

(** C5, BigQuery half: without a client, each action throws the
    not-established error and nothing else happens. *)
Lemma disconnected_actions_throw
      (W : World) (s : St BigQueryDriver) (payload : JsValue) :
  client (this s) = None ->
  nullish payload = false ->
  insertData W payload s = (Throw not_established, s) /\
  updateData W payload s = (Throw not_established, s) /\
  deleteData W payload s = (Throw not_established, s).
Proof.
  intros Hclient Hpayload.
  unfold insertData, updateData, deleteData, mbind, lift, get_this, throw.
  bind_members payload Hpayload.
  rewrite Hclient. repeat split; reflexivity.
Qed.

Lemma extractChangeset_mapping (entries : list (string * JsValue)) (sc : TableSchema)
      (fl : list ITableFieldSchema) :
  ts_fields sc = Some fl ->
  extractChangeset (JObj entries) (Some sc)
  = bind (mapM (changeset_entry fl) entries) (fun changeset => Ok (join "," changeset)).
Proof.
  intros Hfl. unfold extractChangeset. simpl. rewrite Hfl. simpl.
  rewrite (mapM_ext _ (changeset_entry fl)); [reflexivity|].
  intros [k v] _. unfold changeset_entry. simpl.
  destruct (find (name_is k) fl); reflexivity.
Qed.

Lemma changeset_entries_ok (fl : list ITableFieldSchema)
      (entries : list (string * JsValue)) :
  (forall k v, In (k, v) entries ->
     exists f r, find (name_is k) fl = Some f /\ parseValue v f = Ok r) ->
  exists ys, Forall2 (fun a y => changeset_entry fl a = Ok y) entries ys.
Proof.
  induction entries as [|[k v] entries IH]; intros Hall.
  - exists []. constructor.
  - destruct (Hall k v (or_introl eq_refl)) as [f [r [Hfind Hr]]].
    destruct IH as [ys Hys].
    { intros k' v' Hin. apply Hall. now right. }
    exists (((k ++ "=") ++ r) :: ys). constructor; [|exact Hys].
    unfold changeset_entry. simpl. now rewrite Hfind, Hr.
Qed.

(** C7 (amended): [updateData] on a connected driver, with filters and a
    table handle, whose [set] is a mapping containing a key absent from
    the fetched schema, throws after the schema fetch and sends no query.
    The error is [Schema-altering update] when every entry listed before
    that key names a column of the schema and renders; otherwise, when an
    entry listed before it names a column but fails to render, the
    entries before that one rendering, the error thrown is that entry's. *)
Theorem updateData_unknown_column
        (W : World) (s : St BigQueryDriver) (c : Client)
        (payload dataset table filters : JsValue)
        (pre post : list (string * JsValue)) (key : string) (value : JsValue)
        (meta : TableMetadata) (sc : TableSchema) (fl : list ITableFieldSchema) :
  client (this s) = Some c ->
  nullish payload = false ->
  get payload "dataset" = Ok dataset ->
  get payload "table" = Ok table ->
  get payload "filters" = Ok filters ->
  no_filters filters = false ->
  get payload "set" = Ok (JObj (pre ++ (key, value) :: post)) ->
  table_handle W dataset table = Ok tt ->
  metadata W (trace s) dataset table = Ok meta ->
  schema meta = Some sc ->
  ts_fields sc = Some fl ->
  find (name_is key) fl = None ->
  let fetched := {| this := this s;
                    trace := trace s ++ [Remote (BQ_table_getMetadata dataset table)] |} in
  (exists e, updateData W payload s = (Throw e, fetched)) /\
  ((forall k v, In (k, v) pre ->
      exists f r, find (name_is k) fl = Some f /\ parseValue v f = Ok r) ->
   updateData W payload s = (Throw (Error "Schema-altering update"), fetched)) /\
  (forall before after k1 v1 f e1,
      pre = (before ++ (k1, v1) :: after)%list ->
      (forall k v, In (k, v) before ->
         exists f' r, find (name_is k) fl = Some f' /\ parseValue v f' = Ok r) ->
      find (name_is k1) fl = Some f ->
      parseValue v1 f = Throw e1 ->
      updateData W payload s = (Throw e1, fetched)).
Proof.
  intros Hclient Hpayload Hd Ht Hf Hno Hset Hhandle Hmeta Hschema Hfl Hkey fetched.
  subst fetched.
  assert (Hentry : changeset_entry fl (key, value)
                   = Throw (Error "Schema-altering update")).
  { unfold changeset_entry. simpl. now rewrite Hkey. }
  assert (Hrun : forall e,
             mapM (changeset_entry fl) (pre ++ (key, value) :: post) = Throw e ->
             updateData W payload s
             = (Throw e, {| this := this s;
                            trace := trace s ++
                                     [Remote (BQ_table_getMetadata dataset table)] |})).
  { intros e He. unfold updateData. run_eff.
    rewrite !(destructure_get payload _ Hpayload), Hd, Ht, Hf, Hset, Hclient, Hno.
    rewrite Hhandle, Hmeta, Hschema, (extractChangeset_mapping _ sc fl Hfl), He.
    reflexivity. }
  split; [|split].
  - destruct (mapM_failure (changeset_entry fl) (pre ++ (key, value) :: post)
                (key, value) _ (in_elt _ _ _) Hentry) as [e He].
    exists e. now apply Hrun.
  - intros Hpre. apply Hrun.
    destruct (changeset_entries_ok fl pre Hpre) as [ys Hys].
    exact (mapM_first_failure _ pre post (key, value) ys _ Hys Hentry).
  - intros before after k1 v1 f e1 Hsplit Hbefore Hfind Hrender.
    apply Hrun. subst pre. rewrite <- app_assoc. cbn [app].
    destruct (changeset_entries_ok fl before Hbefore) as [ys Hys].
    apply (mapM_first_failure _ before _ (k1, v1) ys _ Hys).
    unfold changeset_entry. simpl. now rewrite Hfind, Hrender.
Qed.

Lemma updateData_unknown_column_witness :
  updateData sample_world
             (update_payload (JObj [("id", JNum 2); ("ghost", JNum 1)]))
             connected_bigquery
  = (Throw (Error "Schema-altering update"),
     {| this := this connected_bigquery;
        trace := [Remote (BQ_table_getMetadata (JStr "ds") (JStr "tb"))] |}) /\
  updateData sample_world
             (update_payload (JObj [("id", JNum 2); ("span", JStr "1-2");
                                    ("ghost", JNum 1)]))
             connected_bigquery
  = (Throw (Error "Unknown type: INTERVAL"),
     {| this := this connected_bigquery;
        trace := [Remote (BQ_table_getMetadata (JStr "ds") (JStr "tb"))] |}).
Proof.
  split.
  - refine (proj1 (proj2 (updateData_unknown_column
                     sample_world connected_bigquery bigquery_client
                     (update_payload (JObj [("id", JNum 2); ("ghost", JNum 1)]))
                     (JStr "ds") (JStr "tb") (JStr "id = 1")
                     [("id", JNum 2)] [] "ghost" (JNum 1)
                     {| schema := Some sample_schema |} sample_schema
                     [FieldSchema (Some "id") (Some "INTEGER") None;
                      FieldSchema (Some "span") (Some "INTERVAL") None;
                      FieldSchema (Some "label") (Some "STRING") None]
                     eq_refl eq_refl eq_refl eq_refl eq_refl eq_refl eq_refl
                     eq_refl eq_refl eq_refl eq_refl eq_refl)) _).
    intros k v [Hin|[]]. injection Hin as <- <-.
    exists (FieldSchema (Some "id") (Some "INTEGER") None), "2".
    split; reflexivity.
  - refine (proj2 (proj2 (updateData_unknown_column
                     sample_world connected_bigquery bigquery_client
                     (update_payload (JObj [("id", JNum 2); ("span", JStr "1-2");
                                            ("ghost", JNum 1)]))
                     (JStr "ds") (JStr "tb") (JStr "id = 1")
                     [("id", JNum 2); ("span", JStr "1-2")] [] "ghost" (JNum 1)
                     {| schema := Some sample_schema |} sample_schema
                     [FieldSchema (Some "id") (Some "INTEGER") None;
                      FieldSchema (Some "span") (Some "INTERVAL") None;
                      FieldSchema (Some "label") (Some "STRING") None]
                     eq_refl eq_refl eq_refl eq_refl eq_refl eq_refl eq_refl
                     eq_refl eq_refl eq_refl eq_refl eq_refl))
              [("id", JNum 2)] [] "span" (JStr "1-2")
              (FieldSchema (Some "span") (Some "INTERVAL") None)
              (Error "Unknown type: INTERVAL") eq_refl _ eq_refl eq_refl).
    intros k v [Hin|[]]. injection Hin as <- <-.
    exists (FieldSchema (Some "id") (Some "INTEGER") None), "2".
    split; reflexivity.
Defined.

(** C7, as stated, fails: a key absent from the schema ([ghost]) does not
    give the schema-altering error when an earlier entry ([span], of the
    unsupported type INTERVAL) fails to render. *)
Lemma updateData_unknown_column_counterexample :
  updateData sample_world
             (update_payload (JObj [("span", JStr "1-2"); ("ghost", JNum 1)]))
             connected_bigquery
  = (Throw (Error "Unknown type: INTERVAL"),
     {| this := this connected_bigquery;
        trace := [Remote (BQ_table_getMetadata (JStr "ds") (JStr "tb"))] |}) /\
  Error "Unknown type: INTERVAL" <> Error "Schema-altering update".
Proof.
  split; [reflexivity | discriminate].
Qed.

(** The methods of the driver record no calls themselves. *)

Lemma silent_attempt {A} (m : M BigQueryDriver A) : silent m -> silent (attempt m).
Proof.
  intros Hm s. unfold attempt. specialize (Hm s).
  destruct (m s) as [r s1]. exact Hm.
Qed.

Lemma bigquery_connect_silent (W : World) (config : JsValue) : silent (connect W config).
Proof. unfold connect. silent_steps. Qed.

Lemma insertData_silent (W : World) (payload : JsValue) : silent (insertData W payload).
Proof.
  unfold insertData. silent_steps.
  apply silent_attempt. silent_steps.
Qed.

Lemma updateData_silent (W : World) (payload : JsValue) : silent (updateData W payload).
Proof. unfold updateData. silent_steps. Qed.

Lemma deleteData_silent (W : World) (payload : JsValue) : silent (deleteData W payload).
Proof. unfold deleteData. silent_steps. Qed.

Lemma bigquery_disconnect_returns (s : St BigQueryDriver) :
  exists u d, disconnect s = (Ok u, Build_St d (trace s)).
Proof.
  exists JUndefined, (with_client (this s) None). reflexivity.
Qed.

End BigQueryProps.

(** ** The Xero driver *)

Module XeroProps.
Import Xero Vocabulary.

(** C10: [connect] called without a config, or with a config that has no
    [oauth2] member, throws the TypeError of a property read on
    [undefined]; driver and trace are left as they were, so no client has
    been built and no request sent, whatever client id and secret the
    constructor bound. *)
Theorem connect_requires_oauth2
        (W : World) (s : St XeroDriver) (config : JsValue) :
  (config = JUndefined ->
   connect W config s
   = (Throw (TypeError "Cannot read properties of undefined (reading 'XERO_CLIENT_ID')"),
      s)) /\
  (get config "oauth2" = Ok JUndefined ->
   connect W config s
   = (Throw (TypeError "Cannot read properties of undefined (reading 'redirectUri')"),
      s)).
Proof.
  split.
  - intros ->. reflexivity.
  - intros Hoauth.
    assert (Hconfig : nullish config = false).
    { destruct config; try reflexivity; discriminate Hoauth. }
    unfold connect, mbind, lift, get_this.
    destruct (get_total config "XERO_CLIENT_ID" Hconfig) as [id ->].
    destruct (get_total config "XERO_CLIENT_SECRET" Hconfig) as [secret ->].
    rewrite Hoauth. reflexivity.
Qed.

Lemma connect_requires_oauth2_witness :
  connect sample_world JUndefined disconnected_xero
  = (Throw (TypeError "Cannot read properties of undefined (reading 'XERO_CLIENT_ID')"),
     disconnected_xero) /\
  connect sample_world (JObj [("XERO_CLIENT_ID", JStr "id")]) disconnected_xero
  = (Throw (TypeError "Cannot read properties of undefined (reading 'redirectUri')"),
     disconnected_xero).
Proof.
  split.
  - apply (proj1 (connect_requires_oauth2 sample_world disconnected_xero JUndefined)).
    reflexivity.
  - apply (proj2 (connect_requires_oauth2 sample_world disconnected_xero
                    (JObj [("XERO_CLIENT_ID", JStr "id")]))).
    reflexivity.
Defined.

(** [testConnection] of the Xero driver never throws, connected or not. *)
Lemma testConnection_total (W : World) (s : St XeroDriver) :
  exists success message s',
    testConnection W s = (Ok (test_result success message), s').
Proof.
  unfold testConnection, try_catch.
  match goal with
  | |- context [match ?body s with _ => _ end] => destruct (body s) as [[r|e] s1] eqn:E
  end.
  - revert E. unfold call_accounting. run_eff.
    destruct (accountingApi (client (this s))); [|discriminate].
    destruct (tenantIds (this s)); [|discriminate].
    destruct (accounting_source W "getAccounts"); [|discriminate].
    destruct (respond W (trace s) _); [|discriminate].
    intros [= <- <-]. eauto.
  - run_eff. eauto.
Qed.

(** Without a client handle, the first read of [this.client.accountingApi]
    fails. *)
Lemma accountingApi_missing (c : ClientField) :
  c = client_null \/ c = client_undefined ->
  exists base, nullish base = true /\
               accountingApi c = Throw (TypeError (read_message base "accountingApi")).
Proof.
  intros [->| ->]; [exists JNull | exists JUndefined]; split; reflexivity.
Qed.

(** Splitting a dotted name. *)

Lemma split_on_accounting (method : string) :
  split_on "." ("accounting." ++ method) = "accounting" :: split_on "." method.
Proof.
  simpl. destruct (split_on "." method); reflexivity.
Qed.

(** C5, Xero half: without a client handle [performAction] throws and
    nothing else happens; for a name of the accounting API the error is
    the TypeError of reading [accountingApi] off the missing handle. *)
Lemma performAction_without_client
      (W : World) (s : St XeroDriver) (prop params : JsValue) :
  client (this s) = client_null \/ client (this s) = client_undefined ->
  (exists e, performAction W prop params s = (Throw e, s)) /\
  (forall method,
      prop = JStr ("accounting." ++ method) ->
      exists base,
        nullish base = true /\
        performAction W prop params s
        = (Throw (TypeError (read_message base "accountingApi")), s)).
Proof.
  intros Hclient.
  destruct (accountingApi_missing _ Hclient) as [base [Hbase Hmissing]].
  split.
  - unfold performAction. run_eff.
    destruct (nullish prop); [eauto|].
    destruct (String.eqb _ "accounting"); [|eauto].
    rewrite Hmissing. eauto.
  - intros method ->. exists base. split; [exact Hbase|].
    unfold performAction. run_eff.
    cbv beta iota delta [nullish ToString].
    rewrite split_on_accounting.
    cbv beta iota delta [hd]. rewrite String.eqb_refl, Hmissing. reflexivity.
Qed.

(** *** The tenant fan-out *)

Lemma split_on_no_dot (name : string) :
  no_dot name = true -> split_on "." name = [name].
Proof.
  unfold no_dot. induction name as [|c name IH]; simpl; [reflexivity|].
  intros H. apply andb_prop in H. destruct H as [Hc Hrest].
  apply negb_true_iff in Hc. rewrite Hc, (IH Hrest). reflexivity.
Qed.

Lemma args_for_ok (methodParams : list string) (params tenantId : JsValue) :
  nullish params = false ->
  mapM (fun param => if String.eqb param "xeroTenantId" then Ok tenantId
                     else get params param) methodParams
  = Ok (args_for methodParams params tenantId).
Proof.
  intros Hparams. apply mapM_Forall2. unfold args_for.
  induction methodParams as [|param rest IH]; simpl; constructor; [|exact IH].
  destruct (String.eqb param "xeroTenantId"); [reflexivity|].
  destruct (get_total params param Hparams) as [x ->]. reflexivity.
Qed.

Lemma assoc_replace_value (k k' : string) (v : JsValue)
      (props : list (string * JsValue)) :
  assoc k' (replace_value k v props)
  = if String.eqb k k' then option_map (fun _ => v) (assoc k props)
    else assoc k' props.
Proof.
  induction props as [|[k0 v0] props IH]; simpl.
  - now destruct (String.eqb k k').
  - destruct (String.eqb_spec k0 k) as [->|Hk0]; simpl.
    + destruct (String.eqb k k'); reflexivity.
    + rewrite IH. destruct (String.eqb_spec k k') as [->|_]; [|reflexivity].
      apply String.eqb_neq in Hk0. now rewrite Hk0.
Qed.

Lemma assoc_insert_index (i : Z) (k k' : string) (v : JsValue)
      (props : list (string * JsValue)) :
  assoc k props = None ->
  assoc k' (insert_index i k v props)
  = if String.eqb k k' then Some v else assoc k' props.
Proof.
  induction props as [|[k0 v0] props IH]; simpl; intros Hfresh.
  - reflexivity.
  - destruct (String.eqb_spec k0 k) as [->|Hk0]; [discriminate|].
    destruct (array_index k0) as [j|]; [destruct (Z.ltb j i)|]; simpl;
      try reflexivity.
    rewrite (IH Hfresh).
    destruct (String.eqb_spec k k') as [->|_]; [|reflexivity].
    apply String.eqb_neq in Hk0. now rewrite Hk0.
Qed.

Lemma assoc_app_one (k k' : string) (v : JsValue) (props : list (string * JsValue)) :
  assoc k props = None ->
  assoc k' (props ++ [(k, v)])
  = if String.eqb k k' then Some v else assoc k' props.
Proof.
  induction props as [|[k0 v0] props IH]; simpl; intros Hfresh.
  - reflexivity.
  - destruct (String.eqb_spec k0 k) as [->|Hk0]; [discriminate|].
    rewrite (IH Hfresh).
    destruct (String.eqb_spec k k') as [->|_]; [|reflexivity].
    apply String.eqb_neq in Hk0. now rewrite Hk0.
Qed.

(** Reading back after [o[k] = v], for a key other than [__proto__]. *)
Lemma assoc_assoc_set (k k' : string) (v : JsValue) (props : list (string * JsValue)) :
  k <> "__proto__" ->
  assoc k' (assoc_set k v props)
  = if String.eqb k k' then Some v else assoc k' props.
Proof.
  intros Hproto. apply String.eqb_neq in Hproto.
  unfold assoc_set. rewrite Hproto.
  destruct (assoc k props) as [old|] eqn:Hk.
  - rewrite assoc_replace_value, Hk. reflexivity.
  - destruct (array_index k) as [i|].
    + now apply assoc_insert_index.
    + now apply assoc_app_one.
Qed.

Lemma assoc_None (k : string) (props : list (string * JsValue)) :
  assoc k props = None <-> ~ In k (map fst props).
Proof.
  induction props as [|[k0 v0] props IH]; simpl.
  - tauto.
  - destruct (String.eqb_spec k0 k) as [->|Hk0].
    + split; [discriminate | intros H; elim H; now left].
    + rewrite IH. tauto.
Qed.

Lemma nth_error_answers (W : World) (calls : list Request) :
  forall (h : list Event) (i : nat) (r : Request),
    nth_error calls i = Some r ->
    nth_error (answers W h calls) i
    = Some (respond W (h ++ map Remote (firstn i calls)) r).
Proof.
  induction calls as [|r0 calls IH]; intros h i r Hr.
  - destruct i; discriminate Hr.
  - destruct i as [|i]; simpl in *.
    + injection Hr as ->. now rewrite app_nil_r.
    + rewrite (IH _ _ _ Hr). rewrite <- app_assoc. reflexivity.
Qed.

Section FanOut.
Variable W : World.
Variables (h : XeroClient) (method source : string) (params : JsValue).

Hypothesis method_found : accounting_source W method = Some source.
Hypothesis params_object : nullish params = false.
Hypothesis rejections : forall hist r e, respond W hist r = Throw e -> nullish e = false.

(** One turn of the loop: whatever the answer, an entry results. *)
Lemma tenant_entry (s : St XeroDriver) (args : list JsValue) :
  client (this s) = client_of h ->
  try_catch
    (mbind (call_accounting W method args) (fun result => lift (get result "body")))
    (fun err => lift (get err "response")) s
  = (Ok (entry_of (respond W (trace s) (Xero_accounting method args))),
     {| this := this s; trace := trace s ++ [Remote (Xero_accounting method args)] |}).
Proof.
  intros Hclient. unfold call_accounting. run_eff.
  rewrite Hclient, method_found. simpl.
  destruct (respond W (trace s) (Xero_accounting method args)) as [v|e] eqn:Eanswer.
  - simpl. destruct (get v "body") as [body|err] eqn:Ebody; [reflexivity|].
    destruct v; try discriminate Ebody; simpl in Ebody;
      try (injection Ebody as <-; reflexivity);
      repeat match type of Ebody with
             | context [if ?b then _ else _] => destruct b
             | context [match ?x with _ => _ end] => destruct x
             end; discriminate Ebody.
  - simpl. destruct (get_total e "response" (rejections _ _ _ Eanswer)) as [r ->].
    reflexivity.
Qed.

Lemma fan_out_spec (ids : list JsValue) :
  forall (acc : list (string * JsValue)) (s : St XeroDriver),
    client (this s) = client_of h ->
    NoDup (map ToString ids) ->
    ~ In "__proto__" (map ToString ids) ->
    exists responses,
      fan_out W method (methodParams_of source) params ids acc s
      = (Ok responses,
         {| this := this s;
            trace := trace s ++
                     map Remote
                         (map (tenant_call method (methodParams_of source) params)
                              ids) |}) /\
      (forall k t,
          nth_error ids k = Some t ->
          assoc (ToString t) responses
          = Some (entry_of
                    (respond W
                       (trace s ++
                        map Remote
                            (firstn k
                                    (map (tenant_call method (methodParams_of source)
                                                      params) ids)))
                       (tenant_call method (methodParams_of source) params t)))) /\
      (forall key, ~ In key (map ToString ids) -> assoc key responses = assoc key acc).
Proof.
  induction ids as [|t rest IH]; intros acc s Hclient Hnd Hproto.
  - exists acc. simpl. unfold ret. rewrite app_nil_r.
    split; [destruct s; reflexivity|]. split; [|reflexivity].
    intros [|k] t Hk; discriminate Hk.
  - inversion Hnd as [|key keys Hnotin Hnd']; subst.
    assert (Ht : ToString t <> "__proto__").
    { intros Heq. apply Hproto. now left. }
    assert (Hproto' : ~ In "__proto__" (map ToString rest)).
    { intros Hin. apply Hproto. now right. }
    set (first_call := tenant_call method (methodParams_of source) params t).
    set (s1 := {| this := this s; trace := trace s ++ [Remote first_call] |}).
    set (entry := entry_of (respond W (trace s) first_call)).
    destruct (IH (assoc_set (ToString t) entry acc) s1 Hclient Hnd' Hproto')
      as [responses [Hrun [Hentries Hother]]].
    exists responses. split; [|split].
    + cbn [fan_out]. unfold mbind at 1. unfold lift at 1.
      rewrite (args_for_ok _ _ t params_object).
      unfold mbind at 1. rewrite (tenant_entry s _ Hclient).
      fold (tenant_call method (methodParams_of source) params t).
      fold first_call. fold entry. fold s1. rewrite Hrun.
      cbn [map trace this s1]. rewrite <- app_assoc. reflexivity.
    + intros [|k] t' Hk; simpl in Hk.
      * injection Hk as <-. rewrite (Hother _ Hnotin), (assoc_assoc_set _ _ _ _ Ht).
        rewrite String.eqb_refl. cbn [firstn map]. now rewrite app_nil_r.
      * rewrite (Hentries k t' Hk). cbn [map firstn trace s1].
        rewrite <- app_assoc. reflexivity.
    + intros key Hkey. simpl in Hkey.
      rewrite (Hother key); [|tauto].
      rewrite (assoc_assoc_set _ _ _ _ Ht).
      destruct (String.eqb_spec (ToString t) key) as [Heq|_]; [|reflexivity].
      elim Hkey. now left.
Qed.
End FanOut.

(** C4 (amended): on a connected driver whose discovered tenants [ids]
    have distinct identifiers, none of them [__proto__], [performAction]
    on a method of the accounting API, given a [params] object and a
    vendor that rejects with values other than [null] and [undefined],
    sends one call per tenant, in discovery order, and returns a mapping
    whose keys are the tenant identifiers: for a tenant whose call was
    rejected with [e] the entry is [e.response], for a tenant whose call
    resolved to [v] it is [v.body], and [undefined] when [v] is [null] or
    [undefined].  A rejected call does not stop the calls that follow. *)
Theorem performAction_fan_out
        (W : World) (s : St XeroDriver) (h : XeroClient) (ids : list JsValue)
        (method source : string) (params : JsValue) :
  client (this s) = client_of h ->
  tenantIds (this s) = Some ids ->
  no_dot method = true ->
  accounting_source W method = Some source ->
  nullish params = false ->
  NoDup (map ToString ids) ->
  ~ In "__proto__" (map ToString ids) ->
  (forall hist r e, respond W hist r = Throw e -> nullish e = false) ->
  let call := tenant_call method (methodParams_of source) params in
  exists responses,
    performAction W (JStr ("accounting." ++ method)) params s
    = (Ok (JObj responses),
       {| this := this s; trace := trace s ++ map Remote (map call ids) |}) /\
    (forall key, In key (map fst responses) <-> In key (map ToString ids)) /\
    forall k t,
      nth_error ids k = Some t ->
      exists entry,
        assoc (ToString t) responses = Some entry /\
        match respond W (trace s ++ map Remote (map call (firstn k ids))) (call t) with
        | Throw e => get e "response" = Ok entry
        | Ok v => if nullish v then entry = JUndefined else get v "body" = Ok entry
        end.
Proof.
  intros Hclient Hids Hdot Hsource Hparams Hnd Hproto Hrej call.
  destruct (fan_out_spec W h method source params Hsource Hparams Hrej ids []
              s Hclient Hnd Hproto) as [responses [Hrun [Hentries Hother]]].
  fold call in Hrun, Hentries.
  exists responses. split; [|split].
  - unfold performAction. run_eff.
    cbv beta iota delta [nullish ToString].
    rewrite split_on_accounting, (split_on_no_dot _ Hdot).
    cbv beta iota delta [hd tl]. rewrite String.eqb_refl, Hclient.
    cbv beta iota delta [accountingApi]. rewrite Hsource, Hids, Hrun.
    reflexivity.
  - intros key. split.
    + intros Hin.
      destruct (in_dec string_dec key (map ToString ids)) as [Hyes|Hno];
        [exact Hyes|].
      apply Hother in Hno. simpl in Hno. apply assoc_None in Hno. contradiction.
    + intros Hin. apply in_map_iff in Hin. destruct Hin as [t [<- Ht]].
      apply In_nth_error in Ht. destruct Ht as [k Hk].
      destruct (in_dec string_dec (ToString t) (map fst responses)) as [Hyes|Hno];
        [exact Hyes|].
      apply assoc_None in Hno. rewrite (Hentries k t Hk) in Hno. discriminate Hno.
  - intros k t Hk.
    specialize (Hentries k t Hk). rewrite firstn_map in Hentries.
    exists (entry_of (respond W (trace s ++ map Remote (map call (firstn k ids)))
                              (call t))).
    split; [exact Hentries|].
    destruct (respond W (trace s ++ map Remote (map call (firstn k ids))) (call t))
      as [v|e] eqn:Eanswer; simpl.
    + destruct (nullish v) eqn:Hv.
      * destruct v; try discriminate Hv; reflexivity.
      * destruct (get_total v "body" Hv) as [body ->]. reflexivity.
    + destruct (get_total e "response" (Hrej _ _ _ Eanswer)) as [r ->].
      reflexivity.
Qed.

Lemma second_tenant_fails_rejections :
  forall hist r e, respond second_tenant_fails hist r = Throw e -> nullish e = false.
Proof.
  intros hist r e. unfold second_tenant_fails, rejecting. simpl.
  match goal with
  | |- (if ?b then _ else _) = _ -> _ => destruct b
  end.
  - intros [= <-]. reflexivity.
  - destruct r; discriminate.
Qed.

Lemma performAction_fan_out_witness :
  exists responses,
    performAction second_tenant_fails (JStr ("accounting." ++ "getAccounts"))
                  (JObj [("where", JStr "Status==1")]) connected_xero
    = (Ok (JObj responses),
       {| this := this connected_xero;
          trace := trace connected_xero ++
                   map Remote
                       (map (tenant_call "getAccounts"
                                         (methodParams_of getAccounts_source)
                                         (JObj [("where", JStr "Status==1")]))
                            [JStr "t1"; JStr "t2"; JStr "t3"]) |}) /\
    forall key, In key (map fst responses) <-> In key ["t1"; "t2"; "t3"].
Proof.
  destruct (performAction_fan_out second_tenant_fails connected_xero xero_client
              [JStr "t1"; JStr "t2"; JStr "t3"] "getAccounts" getAccounts_source
              (JObj [("where", JStr "Status==1")])
              eq_refl eq_refl eq_refl eq_refl eq_refl)
    as [responses [Hrun [Hkeys _]]].
  - repeat constructor; simpl; intuition discriminate.
  - simpl. intuition discriminate.
  - exact second_tenant_fails_rejections.
  - exists responses. split; [exact Hrun | exact Hkeys].
Defined.

(** C4, as stated, fails in three ways.  When the vendor rejects the
    call of the first tenant with [undefined], the [catch] itself throws:
    no mapping is returned and the tenants after it are never called.
    When [params] is [undefined], building the arguments of the first
    call throws before any call is sent.  When a tenant is named
    [__proto__], its call is sent but the mapping returned holds no entry
    for it. *)
Lemma performAction_fan_out_counterexample :
  performAction rejects_with_undefined (JStr "accounting.getAccounts")
                (JObj [("where", JStr "Status==1")]) connected_xero
  = (Throw (TypeError "Cannot read properties of undefined (reading 'response')"),
     {| this := this connected_xero;
        trace := [Remote (tenant_call "getAccounts"
                                      (methodParams_of getAccounts_source)
                                      (JObj [("where", JStr "Status==1")])
                                      (JStr "t1"))] |}) /\
  performAction sample_world (JStr "accounting.getAccounts") JUndefined
                connected_xero
  = (Throw (TypeError
              "Cannot read properties of undefined (reading 'ifModifiedSince')"),
     connected_xero) /\
  fst (performAction sample_world (JStr "accounting.getAccounts") (JObj [])
         {| this := xero_driver (client_of xero_client)
                                (Some [JStr "t1"; JStr "__proto__"]);
            trace := [] |})
  = Ok (JObj [("t1", JStr "accounts")]).
Proof.
  repeat split; reflexivity.
Qed.

(** The fan-out on three tenants, the second of which is rejected. *)
Example performAction_second_tenant_fails :
  fst (performAction second_tenant_fails (JStr "accounting.getAccounts")
                     (JObj [("where", JStr "Status==1")]) connected_xero)
  = Ok (JObj [("t1", JStr "accounts");
              ("t2", JObj [("statusCode", JNum 500)]);
              ("t3", JStr "accounts")]).
Proof. reflexivity. Qed.

(** The methods of the driver record no calls themselves. *)

Lemma xero_connect_silent (W : World) (config : JsValue) : silent (connect W config).
Proof. unfold connect. silent_steps. Qed.

Lemma call_accounting_silent (W : World) (name : string) (args : list JsValue) :
  silent (call_accounting W name args).
Proof. unfold call_accounting. silent_steps. Qed.

Lemma fan_out_silent (W : World) (method : string) (methodParams : list string)
      (params : JsValue) (ids : list JsValue) :
  forall responses, silent (fan_out W method methodParams params ids responses).
Proof.
  induction ids as [|tenantId rest IH]; intros responses; simpl.
  - apply silent_ret.
  - apply silent_bind; [apply silent_lift | intros args].
    apply silent_bind; [|intros entry; apply IH].
    apply silent_try_catch; [|intros err; apply silent_lift].
    apply silent_bind; [apply call_accounting_silent | intros result; apply silent_lift].
Qed.

Lemma performAction_silent (W : World) (prop params : JsValue) :
  silent (performAction W prop params).
Proof.
  unfold performAction. silent_steps.
  apply fan_out_silent.
Qed.

Lemma xero_disconnect_returns (s : St XeroDriver) :
  exists u d, disconnect s = (Ok u, Build_St d (trace s)).
Proof.
  exists JUndefined, (update (this s) client_null (Some [])). reflexivity.
Qed.

End XeroProps.

(** ** The lifecycle proxies *)

Module ProxyProps.
Import Vocabulary.

(** C3: a domain action called through a lifecycle proxy ([insertData],
    [updateData], [deleteData] on the BigQuery proxy, [performAction] on
    the Xero proxy) either runs connect, then the action on the caller's
    payload, then disconnect, and returns the action's own result; or ends
    at the first of connect and action that throws, in which case the
    error is logged once and thrown on unchanged, disconnect is not
    called, and the driver is left as the failing step left it. *)
Theorem lifecycle_proxy_runs (W : World) (payload : JsValue) :
  (forall s,
      lifecycle_run (BigQuery.connect W JUndefined) [] "insertData" [payload]
                    (BigQuery.insertData W payload) BigQuery.disconnect s
                    (BigQuery.proxy_call W "insertData" payload s)) /\
  (forall s,
      lifecycle_run (BigQuery.connect W JUndefined) [] "updateData" [payload]
                    (BigQuery.updateData W payload) BigQuery.disconnect s
                    (BigQuery.proxy_call W "updateData" payload s)) /\
  (forall s,
      lifecycle_run (BigQuery.connect W JUndefined) [] "deleteData" [payload]
                    (BigQuery.deleteData W payload) BigQuery.disconnect s
                    (BigQuery.proxy_call W "deleteData" payload s)) /\
  (forall config params target s,
      Xero.proxy_get W config target "performAction"
      = Ok (Xero.Callable (Xero.proxy_fn W config "performAction")) /\
      lifecycle_run (Xero.connect W (Xero.or_else config payload))
                    [Xero.or_else config payload]
                    "performAction" [payload; params]
                    (Xero.performAction W payload params) Xero.disconnect s
                    (Xero.proxy_fn W config "performAction" payload params s)).
Proof.
  repeat split; intros.
  - apply (lifecycle_shape _ _ _ _ _ _
             (BigQueryProps.bigquery_connect_silent W JUndefined)
             (BigQueryProps.insertData_silent W payload)
             BigQueryProps.bigquery_disconnect_returns).
  - apply (lifecycle_shape _ _ _ _ _ _
             (BigQueryProps.bigquery_connect_silent W JUndefined)
             (BigQueryProps.updateData_silent W payload)
             BigQueryProps.bigquery_disconnect_returns).
  - apply (lifecycle_shape _ _ _ _ _ _
             (BigQueryProps.bigquery_connect_silent W JUndefined)
             (BigQueryProps.deleteData_silent W payload)
             BigQueryProps.bigquery_disconnect_returns).
  - apply (lifecycle_shape _ _ _ _ _ _
             (XeroProps.xero_connect_silent W (Xero.or_else config payload))
             (XeroProps.performAction_silent W payload params)
             XeroProps.xero_disconnect_returns).
Qed.

(** A run that returns, and a run that throws with the client in place. *)
Example proxy_insertData_returns :
  let run := BigQuery.proxy_call sample_world "insertData" insert_payload
                                 disconnected_bigquery in
  fst run = Ok (JArr [JArr []]) /\
  invocations (trace (snd run))
  = [("connect", []); ("insertData", [insert_payload]); ("disconnect", [])] /\
  BigQuery.client (this (snd run)) = None.
Proof. repeat split. Qed.

Example proxy_updateData_throws :
  let run := BigQuery.proxy_call (rejecting (vendor_error 500) (fun _ => true))
                                 "updateData" (update_payload (JStr "a=1"))
                                 disconnected_bigquery in
  fst run = Throw (vendor_error 500) /\
  invocations (trace (snd run))
  = [("connect", []); ("updateData", [update_payload (JStr "a=1")])] /\
  last (trace (snd run)) (Invoke "none" [])
  = ConsoleLog [JStr "Error occurred ===> "; vendor_error 500] /\
  BigQuery.client (this (snd run)) <> None.
Proof. repeat split. discriminate. Qed.

End ProxyProps.

(** ** Actions on a driver without a client *)

Module Guards.
Import Vocabulary.

(** C5 (amended): without a client handle, [insertData], [updateData] and
    [deleteData] of the BigQuery driver, called with a payload object,
    throw the error [Connection to BigQuery not established] and touch
    neither driver nor trace.  [performAction] of the Xero driver has no
    such guard: it throws as well, before any vendor call, but for a name
    of the accounting API what it throws is the TypeError of reading
    [accountingApi] off the missing handle. *)
Theorem actions_without_client (W : World) :
  (forall (s : St BigQuery.BigQueryDriver) (payload : JsValue),
      BigQuery.client (this s) = None ->
      nullish payload = false ->
      BigQuery.insertData W payload s = (Throw BigQuery.not_established, s) /\
      BigQuery.updateData W payload s = (Throw BigQuery.not_established, s) /\
      BigQuery.deleteData W payload s = (Throw BigQuery.not_established, s)) /\
  (forall (s : St Xero.XeroDriver) (prop params : JsValue),
      Xero.client (this s) = Xero.client_null \/
      Xero.client (this s) = Xero.client_undefined ->
      (exists e, Xero.performAction W prop params s = (Throw e, s)) /\
      (forall method,
          prop = JStr ("accounting." ++ method) ->
          exists base,
            nullish base = true /\
            Xero.performAction W prop params s
            = (Throw (TypeError (read_message base "accountingApi")), s))).
Proof.
  split.
  - intros s payload. apply BigQueryProps.disconnected_actions_throw.
  - intros s prop params. apply XeroProps.performAction_without_client.
Qed.

Lemma actions_without_client_witness :
  BigQuery.insertData sample_world insert_payload disconnected_bigquery
  = (Throw BigQuery.not_established, disconnected_bigquery) /\
  exists base,
    nullish base = true /\
    Xero.performAction sample_world (JStr ("accounting." ++ "getAccounts")) (JObj [])
                       disconnected_xero
    = (Throw (TypeError (read_message base "accountingApi")), disconnected_xero).
Proof.
  split.
  - apply (proj1 (actions_without_client sample_world) disconnected_bigquery
             insert_payload eq_refl eq_refl).
  - apply (proj2 (proj2 (actions_without_client sample_world) disconnected_xero
                    (JStr ("accounting." ++ "getAccounts")) (JObj [])
                    (or_introl eq_refl))
             "getAccounts" eq_refl).
Defined.

(** C5, as stated, fails on the Xero driver: what [performAction] throws
    without a client is a TypeError that does not speak of a connection
    that is not established. *)
Lemma performAction_without_client_counterexample :
  Xero.performAction sample_world (JStr "accounting.getAccounts") (JObj [])
                     disconnected_xero
  = (Throw (TypeError "Cannot read properties of null (reading 'accountingApi')"),
     disconnected_xero) /\
  says_not_established
    (TypeError "Cannot read properties of null (reading 'accountingApi')") = false.
Proof.
  split; reflexivity.
Qed.

End Guards.

(* ================================================================== *)
(** * Further properties of the drivers *)
(* ================================================================== *)

(** ** Methods that leave the driver alone *)

Section Frame.
Context {D : Type}.
Import Vocabulary.

Lemma keeps_ret {A} (a : A) : keeps_driver (D := D) (ret a).
Proof. intros s. reflexivity. Qed.

Lemma keeps_throw {A} (e : JsValue) : keeps_driver (D := D) (A := A) (throw e).
Proof. intros s. reflexivity. Qed.

Lemma keeps_lift {A} (r : Res A) : keeps_driver (D := D) (lift r).
Proof. intros s. reflexivity. Qed.

Lemma keeps_get_this : keeps_driver (D := D) get_this.
Proof. intros s. reflexivity. Qed.

Lemma keeps_console_log (args : list JsValue) : keeps_driver (D := D) (console_log args).
Proof. intros s. reflexivity. Qed.

Lemma keeps_request (W : World) (r : Request) : keeps_driver (D := D) (request W r).
Proof. intros s. reflexivity. Qed.

Lemma keeps_request_metadata (W : World) (dataset table : JsValue) :
  keeps_driver (D := D) (request_metadata W dataset table).
Proof. intros s. reflexivity. Qed.

Lemma keeps_bind {A B} (m : M D A) (k : A -> M D B) :
  keeps_driver m -> (forall a, keeps_driver (k a)) -> keeps_driver (mbind m k).
Proof.
  intros Hm Hk s. unfold mbind. specialize (Hm s).
  destruct (m s) as [[a|e] s1]; simpl in *.
  - now rewrite (Hk a s1).
  - exact Hm.
Qed.

Lemma keeps_try_catch {A} (body : M D A) (handler : JsValue -> M D A) :
  keeps_driver body -> (forall e, keeps_driver (handler e)) ->
  keeps_driver (try_catch body handler).
Proof.
  intros Hb Hh s. unfold try_catch. specialize (Hb s).
  destruct (body s) as [[a|e] s1]; simpl in *.
  - exact Hb.
  - now rewrite (Hh e s1).
Qed.
End Frame.

Ltac keeps_step :=
  match goal with
  | |- Vocabulary.keeps_driver (ret _) => apply keeps_ret
  | |- Vocabulary.keeps_driver (throw _) => apply keeps_throw
  | |- Vocabulary.keeps_driver (lift _) => apply keeps_lift
  | |- Vocabulary.keeps_driver get_this => apply keeps_get_this
  | |- Vocabulary.keeps_driver (console_log _) => apply keeps_console_log
  | |- Vocabulary.keeps_driver (request _ _) => apply keeps_request
  | |- Vocabulary.keeps_driver (request_metadata _ _ _) => apply keeps_request_metadata
  | |- Vocabulary.keeps_driver (mbind _ _) => apply keeps_bind; [|intros ?]
  | |- Vocabulary.keeps_driver (try_catch _ _) => apply keeps_try_catch; [|intros ?]
  | |- Vocabulary.keeps_driver (match ?x with _ => _ end) => destruct x
  | |- Vocabulary.keeps_driver (if ?b then _ else _) => destruct b
  end.

Ltac keeps_steps := repeat keeps_step.

(** ** More on the BigQuery driver *)

Module BigQueryMore.
Import BigQuery Vocabulary.

Lemma keeps_attempt {A} (m : M BigQueryDriver A) :
  keeps_driver m -> keeps_driver (attempt m).
Proof.
  intros Hm s. unfold attempt. specialize (Hm s).
  destruct (m s) as [r s1]. exact Hm.
Qed.

(** X1: [connect] sends nothing.  The credential text it parses is the
    config's [GOOGLE_SERVICE_ACCOUNT_KEY] when config and that member are
    truthy, the constructor's otherwise; when [JSON.parse] throws, the
    error is thrown and the driver keeps the client it had; when it
    returns, the client is replaced by one for the driver's project id and
    the parsed credentials. *)
Theorem connect_outcome (W : World) (s : St BigQueryDriver) (config : JsValue) :
  let outcome text :=
    match JSON_parse W text with
    | Throw e => (Throw e, s)
    | Ok key =>
        (Ok JUndefined,
         {| this := with_client (this s)
                      (Some {| projectId := GCP_PROJECT_ID (this s);
                               credentials := key |});
            trace := trace s |})
    end in
  (forall override,
      truthy config = true ->
      get config "GOOGLE_SERVICE_ACCOUNT_KEY" = Ok override ->
      truthy override = true ->
      connect W config s = outcome (ToString override)) /\
  (truthy config = false \/
   (exists override, get config "GOOGLE_SERVICE_ACCOUNT_KEY" = Ok override /\
                     truthy override = false) ->
   connect W config s = outcome (ToString (GOOGLE_SERVICE_ACCOUNT_KEY (this s)))).
Proof.
  intros outcome. subst outcome. split.
  - intros override Hconfig Hget Hover.
    unfold connect. run_eff. rewrite Hconfig, Hget, Hover.
    destruct (JSON_parse W (ToString override)); reflexivity.
  - intros [Hconfig | [override [Hget Hover]]]; unfold connect; run_eff.
    + rewrite Hconfig, Hconfig.
      destruct (JSON_parse W _); reflexivity.
    + destruct (truthy config) eqn:Hconfig.
      * rewrite Hget, Hover. destruct (JSON_parse W _); reflexivity.
      * rewrite Hconfig. destruct (JSON_parse W _); reflexivity.
Qed.

Lemma connect_outcome_witness :
  connect sample_world (JObj [("GOOGLE_SERVICE_ACCOUNT_KEY", JStr "{}")])
          connected_bigquery
  = (Ok JUndefined,
     {| this := with_client (this connected_bigquery)
                  (Some {| projectId := JStr "proj";
                           credentials := JObj [("client_email", JStr "sa@example.com")] |});
        trace := [] |}) /\
  connect sample_world JUndefined connected_bigquery
  = (Ok JUndefined,
     {| this := with_client (this connected_bigquery)
                  (Some {| projectId := JStr "proj";
                           credentials := JObj [("client_email", JStr "sa@example.com")] |});
        trace := [] |}).
Proof.
  split.
  - apply (proj1 (connect_outcome sample_world connected_bigquery
                    (JObj [("GOOGLE_SERVICE_ACCOUNT_KEY", JStr "{}")]))
             (JStr "{}") eq_refl eq_refl eq_refl).
  - apply (proj2 (connect_outcome sample_world connected_bigquery JUndefined)).
    left. reflexivity.
Defined.

(** X2: [testConnection], [insertData], [updateData] and [deleteData]
    never change the driver object: whatever they return or throw, the
    client and the bound configuration are what they were. *)
Theorem actions_keep_driver (W : World) (payload : JsValue) :
  keeps_driver (testConnection W) /\
  keeps_driver (insertData W payload) /\
  keeps_driver (updateData W payload) /\
  keeps_driver (deleteData W payload).
Proof.
  repeat split.
  - unfold testConnection. keeps_steps.
  - unfold insertData. keeps_steps. apply keeps_attempt. keeps_steps.
  - unfold updateData. keeps_steps.
  - unfold deleteData. keeps_steps.
Qed.



(** X4: [extractChangeset] on a mapping all of whose keys are columns of
    the schema, each value rendering under its column, returns the
    assignments [key=rendering] in the order of the mapping's keys,
    separated by commas. *)
Theorem extractChangeset_assignments
        (entries : list (string * JsValue)) (rendered : list string)
        (sc : TableSchema) (fl : list ITableFieldSchema) :
  ts_fields sc = Some fl ->
  Forall2 (fun kv r => exists f, find (name_is (fst kv)) fl = Some f /\
                                 parseValue (snd kv) f = Ok r)
          entries rendered ->
  extractChangeset (JObj entries) (Some sc)
  = Ok (join "," (assignments entries rendered)).
Proof.
  intros Hfl Hall. rewrite (BigQueryProps.extractChangeset_mapping _ sc fl Hfl).
  rewrite (mapM_Forall2 _ entries (assignments entries rendered)); [reflexivity|].
  induction Hall as [|kv r entries' rendered' [f [Hf Hr]] _ IH]; simpl; constructor.
  - unfold changeset_entry. now rewrite Hf, Hr.
  - exact IH.
Qed.

Lemma extractChangeset_assignments_witness :
  extractChangeset (JObj [("id", JNum 3); ("label", JStr "x")]) (Some sample_schema)
  = Ok (join "," ["id=3"; "label=" ++ dq ++ "x" ++ dq]).
Proof.
  apply (extractChangeset_assignments
           [("id", JNum 3); ("label", JStr "x")] ["3"; dq ++ "x" ++ dq]
           sample_schema
           [FieldSchema (Some "id") (Some "INTEGER") None;
            FieldSchema (Some "span") (Some "INTERVAL") None;
            FieldSchema (Some "label") (Some "STRING") None]
           eq_refl).
  repeat constructor.
  - exists (FieldSchema (Some "id") (Some "INTEGER") None). split; reflexivity.
  - exists (FieldSchema (Some "label") (Some "STRING") None). split; reflexivity.
Defined.

(** X5: [extractChangeset] on a value without own entries that is neither
    a string nor an array (an empty object, a number, a boolean) returns
    the empty text, and on [null] or [undefined] throws the TypeError of
    [Object.entries]; in both cases whatever the schema, which is not read. *)
Theorem extractChangeset_without_entries (set : JsValue) (schema : option TableSchema) :
  (Object_entries set = Ok [] ->
   (forall text, set <> JStr text) ->
   (forall items, set <> JArr items) ->
   extractChangeset set schema = Ok EmptyString) /\
  (nullish set = true ->
   extractChangeset set schema
   = Throw (TypeError "Cannot convert undefined or null to object")).
Proof.
  split.
  - intros Hentries Hstr Harr.
    destruct set; try discriminate Hentries;
      try (now elim (Hstr s)); try (now elim (Harr items));
      unfold extractChangeset; rewrite Hentries; reflexivity.
  - intros Hnull. destruct set; try discriminate Hnull; reflexivity.
Qed.

Lemma extractChangeset_without_entries_witness :
  extractChangeset (JObj []) None = Ok EmptyString /\
  extractChangeset JUndefined (Some sample_schema)
  = Throw (TypeError "Cannot convert undefined or null to object").
Proof.
  split.
  - apply (proj1 (extractChangeset_without_entries (JObj []) None)).
    + reflexivity.
    + intros text. discriminate.
    + intros items. discriminate.
  - apply (proj2 (extractChangeset_without_entries JUndefined (Some sample_schema))).
    reflexivity.
Defined.







(** X9: called without a payload ([undefined] or [null]), the three
    actions throw the TypeError of destructuring their parameter before
    they look at the client: connected or not, nothing is sent and the
    error is not the not-established one. *)
Theorem actions_without_payload
        (W : World) (s : St BigQueryDriver) (payload : JsValue) :
  nullish payload = true ->
  insertData W payload s = (Throw (no_payload_error payload), s) /\
  updateData W payload s = (Throw (no_payload_error payload), s) /\
  deleteData W payload s = (Throw (no_payload_error payload), s) /\
  no_payload_error payload <> not_established.
Proof.
  intros Hpayload.
  unfold insertData, updateData, deleteData, destructure. run_eff.
  rewrite Hpayload. repeat split. discriminate.
Qed.

Lemma actions_without_payload_witness :
  insertData sample_world JUndefined disconnected_bigquery
  = (Throw (no_payload_error JUndefined), disconnected_bigquery) /\
  updateData sample_world JUndefined disconnected_bigquery
  = (Throw (no_payload_error JUndefined), disconnected_bigquery) /\
  deleteData sample_world JUndefined disconnected_bigquery
  = (Throw (no_payload_error JUndefined), disconnected_bigquery) /\
  no_payload_error JUndefined <> not_established.
Proof.
  apply (actions_without_payload sample_world disconnected_bigquery JUndefined).
  reflexivity.
Defined.

(** X10: [testConnection] without a client throws the not-established
    error and sends nothing; with a client it sends the sample query, once,
    and reports success when the query resolves to a truthy value, failure
    when it resolves to a falsy one, and throws when it is rejected. *)
Theorem testConnection_outcomes (W : World) (s : St BigQueryDriver) :
  (client (this s) = None ->
   testConnection W s = (Throw not_established, s)) /\
  (forall c,
      client (this s) = Some c ->
      let asked := {| this := this s;
                      trace := trace s ++ [Remote (BQ_query sample_query)] |} in
      (forall response,
          respond W (trace s) (BQ_query sample_query) = Ok response ->
          testConnection W s
          = (Ok (if truthy response
                 then test_result true "Connection established successfully"
                 else test_result false "Could not establish connection to BigQuery"),
             asked)) /\
      (forall e,
          respond W (trace s) (BQ_query sample_query) = Throw e ->
          testConnection W s = (Throw e, asked))).
Proof.
  split.
  - intros Hclient. unfold testConnection. run_eff. now rewrite Hclient.
  - intros c Hclient asked. subst asked. split.
    + intros response Hr. unfold testConnection. run_eff.
      rewrite Hclient, Hr. destruct (truthy response); reflexivity.
    + intros e Hr. unfold testConnection. run_eff.
      rewrite Hclient, Hr. reflexivity.
Qed.

Lemma testConnection_outcomes_witness :
  testConnection sample_world disconnected_bigquery
  = (Throw not_established, disconnected_bigquery) /\
  testConnection sample_world connected_bigquery
  = (Ok (test_result true "Connection established successfully"),
     {| this := this connected_bigquery;
        trace := [Remote (BQ_query sample_query)] |}).
Proof.
  split.
  - apply (proj1 (testConnection_outcomes sample_world disconnected_bigquery)).
    reflexivity.
  - apply (proj1 (proj2 (testConnection_outcomes sample_world connected_bigquery)
                    bigquery_client eq_refl)
             (JArr [JArr []])).
    reflexivity.
Defined.

End BigQueryMore.

(** ** More on [parseValue] *)

Module ParseValueMore.
Import BigQuery Vocabulary.

(** X11: in a RECORD, the first entry that cannot be rendered decides the
    error, the entries before it having rendered: a key that names no
    listed sub-field throws the TypeError of reading [type] off
    [undefined] (not the unknown-type error), and a value whose own
    sub-field rendering throws makes the whole rendering throw the same. *)
Theorem parseValue_record_first_failure
        (value : JsValue) (name : option string) (fl : list ITableFieldSchema)
        (pre post : list (string * JsValue)) (rendered : list string)
        (k : string) (v : JsValue) :
  Object_entries value = Ok (pre ++ (k, v) :: post)%list ->
  Forall2 (fun kv r => exists f, find (name_is (fst kv)) fl = Some f /\
                                 parseValue (snd kv) f = Ok r)
          pre rendered ->
  (find (name_is k) fl = None ->
   parseValue value (FieldSchema name (Some "RECORD") (Some fl))
   = Throw (TypeError "Cannot read properties of undefined (reading 'type')")) /\
  (forall f e,
      find (name_is k) fl = Some f ->
      parseValue v f = Throw e ->
      parseValue value (FieldSchema name (Some "RECORD") (Some fl)) = Throw e).
Proof.
  intros Hentries Hpre.
  assert (Hrun : forall e,
             parseValue_found v (find (name_is k) fl) = Throw e ->
             parseValue value (FieldSchema name (Some "RECORD") (Some fl)) = Throw e).
  { intros e He. rewrite ParseValue.parseValue_RECORD, Hentries. simpl.
    rewrite (mapM_first_failure _ pre post (k, v) rendered e); [reflexivity| |exact He].
    clear - Hpre.
    induction Hpre as [|kv r pre' rendered' [f [Hf Hr]] _ IH]; constructor.
    - now rewrite Hf.
    - exact IH. }
  split.
  - intros Hnone. apply Hrun. now rewrite Hnone.
  - intros f e Hf He. apply Hrun. now rewrite Hf.
Qed.

Lemma parseValue_record_first_failure_witness :
  parseValue (JObj [("a", JNum 1); ("zz", JNum 2)])
             (FieldSchema (Some "r") (Some "RECORD") (Some sample_record_fields))
  = Throw (TypeError "Cannot read properties of undefined (reading 'type')") /\
  parseValue (JObj [("a", JNum 1); ("span", JStr "1-2")])
             (FieldSchema (Some "r") (Some "RECORD")
                          (Some [FieldSchema (Some "a") (Some "INTEGER") None;
                                 FieldSchema (Some "span") (Some "INTERVAL") None]))
  = Throw (Error "Unknown type: INTERVAL").
Proof.
  split.
  - refine (proj1 (parseValue_record_first_failure
                     (JObj [("a", JNum 1); ("zz", JNum 2)]) (Some "r")
                     sample_record_fields [("a", JNum 1)] [] ["1"] "zz" (JNum 2)
                     _ _) _).
    + reflexivity.
    + repeat constructor. eexists. split; reflexivity.
    + reflexivity.
  - refine (proj2 (parseValue_record_first_failure
                     (JObj [("a", JNum 1); ("span", JStr "1-2")]) (Some "r")
                     [FieldSchema (Some "a") (Some "INTEGER") None;
                      FieldSchema (Some "span") (Some "INTERVAL") None]
                     [("a", JNum 1)] [] ["1"] "span" (JStr "1-2")
                     _ _)
              (FieldSchema (Some "span") (Some "INTERVAL") None)
              (Error "Unknown type: INTERVAL") _ _).
    + reflexivity.
    + repeat constructor. eexists. split; reflexivity.
    + reflexivity.
    + reflexivity.
Defined.

(** X12: a RECORD value that is [null] or [undefined] throws the TypeError
    of [Object.entries]; a RECORD value without own entries renders as
    [STRUCT()] whatever the schema lists, even when the schema has no
    [fields] at all. *)
Theorem parseValue_record_without_entries
        (value : JsValue) (name : option string)
        (fields : option (list ITableFieldSchema)) :
  (nullish value = true ->
   parseValue value (FieldSchema name (Some "RECORD") fields)
   = Throw (TypeError "Cannot convert undefined or null to object")) /\
  (Object_entries value = Ok [] ->
   parseValue value (FieldSchema name (Some "RECORD") fields) = Ok "STRUCT()").
Proof.
  split.
  - intros Hnull. rewrite ParseValue.parseValue_RECORD.
    destruct value; try discriminate Hnull; reflexivity.
  - intros Hentries. rewrite ParseValue.parseValue_RECORD, Hentries. reflexivity.
Qed.

Lemma parseValue_record_without_entries_witness :
  parseValue JNull (FieldSchema None (Some "RECORD") (Some sample_record_fields))
  = Throw (TypeError "Cannot convert undefined or null to object") /\
  parseValue (JObj []) (FieldSchema None (Some "RECORD") None) = Ok "STRUCT()".
Proof.
  split.
  - apply (proj1 (parseValue_record_without_entries
                    JNull None (Some sample_record_fields))).
    reflexivity.
  - apply (proj2 (parseValue_record_without_entries (JObj []) None None)).
    reflexivity.
Defined.

End ParseValueMore.

(** ** More on the BigQuery proxy *)

Module BigQueryProxyMore.
Import BigQuery Vocabulary.




(** X13: whatever member is called through the BigQuery proxy, [connect]
    included, a call that returns leaves the driver without a client: the
    proxy never hands back a connected driver. *)
Theorem proxy_return_disconnects
        (W : World) (prop : string) (payload r : JsValue) (s s' : St BigQueryDriver) :
  proxy_call W prop payload s = (Ok r, s') ->
  client (this s') = None.
Proof.
  unfold proxy_call, proxy_get.
  destruct (method W prop) as [action|]; [|discriminate].
  unfold lifecycle. run_eff.
  destruct (connect W JUndefined _) as [[u|e] s1]; [|discriminate].
  destruct (action payload _) as [[r0|e] s2]; [|discriminate].
  unfold disconnect. run_eff. intros [= _ <-]. reflexivity.
Qed.

Lemma proxy_return_disconnects_witness :
  client (this (snd (proxy_call sample_world "connect" JUndefined connected_bigquery)))
  = None.
Proof.
  apply (proxy_return_disconnects sample_world "connect" JUndefined JUndefined
           connected_bigquery
           (snd (proxy_call sample_world "connect" JUndefined connected_bigquery))).
  reflexivity.
Defined.



End BigQueryProxyMore.

(** ** More on the Xero driver *)

Module XeroMore.
Import Xero Vocabulary.

Lemma tenant_ids_ok (items : list JsValue) :
  Forall (fun item => nullish item = false) items ->
  mapM (fun item => get item "tenantId") items = Ok (map tenant_of items).
Proof.
  intros Hitems. apply mapM_Forall2.
  induction Hitems as [|item items Hitem _ IH]; simpl; constructor; [|exact IH].
  unfold tenant_of. destruct (get_total item "tenantId" Hitem) as [x ->]. reflexivity.
Qed.

(** The vendor's check of the token set. *)

Lemma access_token_of_get (t a : JsValue) :
  get t "access_token" = Ok a -> access_token_of t = a.
Proof.
  intros Hget. unfold access_token_of.
  destruct (nullish t) eqn:Ht.
  - destruct t; try discriminate Ht; discriminate Hget.
  - now rewrite Hget.
Qed.

Lemma setTokenSet_passes (c : XeroClient) (t a : JsValue) :
  get t "access_token" = Ok a ->
  a <> JUndefined ->
  setTokenSet c t = (with_tokenSet c t, Ok tt).
Proof.
  intros Hget Ha. unfold setTokenSet. rewrite (access_token_of_get t a Hget).
  destruct a; try reflexivity. now elim Ha.
Qed.

Lemma setTokenSet_fails (c : XeroClient) (t : JsValue) :
  access_token_of t = JUndefined ->
  setTokenSet c t = (with_tokenSet c t, Throw (Error "Access token is undefined!")).
Proof.
  intros Hnone. unfold setTokenSet. now rewrite Hnone.
Qed.

(** X15: given a config with client options and a resolved token set
    that carries an access token, and a discovery request that resolves to
    a response whose [data] is an array of objects, [connect] sends that
    one request, with the token as bearer, installs a client built from
    the config (id and secret falling back on the constructor's when
    falsy) and stores the [tenantId] of every item, in the order of the
    response. *)
Theorem connect_discovers_tenants
        (W : World) (s : St XeroDriver)
        (config id secret oauth2 redirectUri scopes_ resolved access_token
                response : JsValue)
        (items : list JsValue) :
  get config "XERO_CLIENT_ID" = Ok id ->
  get config "XERO_CLIENT_SECRET" = Ok secret ->
  get config "oauth2" = Ok oauth2 ->
  get oauth2 "redirectUri" = Ok redirectUri ->
  get oauth2 "scopes" = Ok scopes_ ->
  get oauth2 "resolved" = Ok resolved ->
  get resolved "access_token" = Ok access_token ->
  access_token <> JUndefined ->
  respond W (trace s) (connections_request access_token) = Ok response ->
  get response "data" = Ok (JArr items) ->
  Forall (fun item => nullish item = false) items ->
  connect W config s
  = (Ok JUndefined,
     {| this := update (this s)
                       (client_of (xero_handle (this s) id secret redirectUri scopes_
                                               resolved))
                       (Some (map tenant_of items));
        trace := trace s ++ [Remote (connections_request access_token)] |}).
Proof.
  intros Hid Hsecret Hoauth Hredirect Hscopes Hresolved Htoken Hdefined
         Hrespond Hdata Hitems.
  unfold connect. run_eff.
  rewrite Hid, Hsecret, Hoauth, Hredirect, Hscopes, Hresolved.
  rewrite (setTokenSet_passes _ resolved access_token Htoken Hdefined), Htoken.
  cbn [fst snd trace this]. fold (connections_request access_token).
  rewrite Hrespond, Hdata, (tenant_ids_ok _ Hitems). reflexivity.
Qed.

Lemma connect_discovers_tenants_witness :
  connect sample_world xero_config disconnected_xero
  = (Ok JUndefined,
     {| this := update (this disconnected_xero)
                       (client_of (xero_handle (this disconnected_xero)
                                               JUndefined JUndefined
                                               (JStr "https://example.com/cb")
                                               (JStr "accounting.transactions")
                                               (JObj [("access_token", JStr "tok")])))
                       (Some [JStr "t1"; JStr "t2"; JStr "t3"]);
        trace := [Remote (connections_request (JStr "tok"))] |}).
Proof.
  refine (connect_discovers_tenants sample_world disconnected_xero xero_config
            JUndefined JUndefined
            (JObj [("redirectUri", JStr "https://example.com/cb");
                   ("scopes", JStr "accounting.transactions");
                   ("resolved", JObj [("access_token", JStr "tok")])])
            (JStr "https://example.com/cb") (JStr "accounting.transactions")
            (JObj [("access_token", JStr "tok")]) (JStr "tok")
            (JObj [("data", sample_tenants)])
            [JObj [("tenantId", JStr "t1")]; JObj [("tenantId", JStr "t2")];
             JObj [("tenantId", JStr "t3")]]
            eq_refl eq_refl eq_refl eq_refl eq_refl eq_refl eq_refl _ eq_refl eq_refl _).
  - discriminate.
  - repeat constructor.
Defined.

(** X16: [connect] replaces the client before it discovers the tenants.
    When the resolved token set carries no access token (the config has
    none, or one without that member), the vendor's [setTokenSet] throws
    [Access token is undefined!] and no request is sent; when the token
    set carries one and the discovery request is rejected, [connect]
    throws that rejection.  In both cases the new client is already
    installed, holding the token set, and the tenant list of the previous
    connection is still in place. *)
Theorem connect_failure_keeps_new_client
        (W : World) (s : St XeroDriver)
        (config id secret oauth2 redirectUri scopes_ resolved : JsValue) :
  get config "XERO_CLIENT_ID" = Ok id ->
  get config "XERO_CLIENT_SECRET" = Ok secret ->
  get config "oauth2" = Ok oauth2 ->
  get oauth2 "redirectUri" = Ok redirectUri ->
  get oauth2 "scopes" = Ok scopes_ ->
  get oauth2 "resolved" = Ok resolved ->
  let installed :=
    update (this s)
           (client_of (xero_handle (this s) id secret redirectUri scopes_ resolved))
           (tenantIds (this s)) in
  (access_token_of resolved = JUndefined ->
   connect W config s
   = (Throw (Error "Access token is undefined!"),
      {| this := installed; trace := trace s |})) /\
  (forall access_token e,
      get resolved "access_token" = Ok access_token ->
      access_token <> JUndefined ->
      respond W (trace s) (connections_request access_token) = Throw e ->
      connect W config s
      = (Throw e,
         {| this := installed;
            trace := trace s ++ [Remote (connections_request access_token)] |})).
Proof.
  intros Hid Hsecret Hoauth Hredirect Hscopes Hresolved installed. subst installed.
  split.
  - intros Hnone. unfold connect. run_eff.
    rewrite Hid, Hsecret, Hoauth, Hredirect, Hscopes, Hresolved.
    rewrite (setTokenSet_fails _ resolved Hnone). reflexivity.
  - intros access_token e Htoken Hdefined Hrespond. unfold connect. run_eff.
    rewrite Hid, Hsecret, Hoauth, Hredirect, Hscopes, Hresolved.
    rewrite (setTokenSet_passes _ resolved access_token Htoken Hdefined), Htoken.
    cbn [fst snd trace this]. fold (connections_request access_token).
    rewrite Hrespond. reflexivity.
Qed.

Lemma connect_failure_keeps_new_client_witness :
  connect sample_world
          (JObj [("oauth2", JObj [("redirectUri", JStr "https://example.com/cb");
                                  ("scopes", JStr "accounting.transactions")])])
          connected_xero
  = (Throw (Error "Access token is undefined!"),
     {| this := update (this connected_xero)
                       (client_of (xero_handle (this connected_xero)
                                               JUndefined JUndefined
                                               (JStr "https://example.com/cb")
                                               (JStr "accounting.transactions")
                                               JUndefined))
                       (Some [JStr "t1"; JStr "t2"; JStr "t3"]);
        trace := [] |}) /\
  connect (rejecting (vendor_error 401) is_axios) xero_config connected_xero
  = (Throw (vendor_error 401),
     {| this := update (this connected_xero)
                       (client_of (xero_handle (this connected_xero)
                                               JUndefined JUndefined
                                               (JStr "https://example.com/cb")
                                               (JStr "accounting.transactions")
                                               (JObj [("access_token", JStr "tok")])))
                       (Some [JStr "t1"; JStr "t2"; JStr "t3"]);
        trace := [Remote (connections_request (JStr "tok"))] |}).
Proof.
  split.
  - refine (proj1 (connect_failure_keeps_new_client
                     sample_world connected_xero
                     (JObj [("oauth2",
                             JObj [("redirectUri", JStr "https://example.com/cb");
                                   ("scopes", JStr "accounting.transactions")])])
                     JUndefined JUndefined
                     (JObj [("redirectUri", JStr "https://example.com/cb");
                            ("scopes", JStr "accounting.transactions")])
                     (JStr "https://example.com/cb") (JStr "accounting.transactions")
                     JUndefined
                     eq_refl eq_refl eq_refl eq_refl eq_refl eq_refl)
              eq_refl).
  - refine (proj2 (connect_failure_keeps_new_client
                     (rejecting (vendor_error 401) is_axios) connected_xero xero_config
                     JUndefined JUndefined
                     (JObj [("redirectUri", JStr "https://example.com/cb");
                            ("scopes", JStr "accounting.transactions");
                            ("resolved", JObj [("access_token", JStr "tok")])])
                     (JStr "https://example.com/cb") (JStr "accounting.transactions")
                     (JObj [("access_token", JStr "tok")])
                     eq_refl eq_refl eq_refl eq_refl eq_refl eq_refl)
              (JStr "tok") (vendor_error 401) eq_refl _ eq_refl).
    discriminate.
Defined.

(** X17: [testConnection] of the Xero driver never throws and never
    changes the driver.  Without a client it reports failure and sends
    nothing; with a client, a tenant list and a [getAccounts] method it
    sends one [getAccounts] call for the first tenant ([undefined] when
    there is none) and reports success exactly when that call resolves. *)
Theorem xero_testConnection_outcomes (W : World) (s : St XeroDriver) :
  (exists success message s',
      testConnection W s = (Ok (test_result success message), s') /\
      this s' = this s) /\
  (client (this s) = client_null \/ client (this s) = client_undefined ->
   testConnection W s
   = (Ok (test_result false "Could not establish connection to Xero"), s)) /\
  (forall h ids source,
      client (this s) = client_of h ->
      tenantIds (this s) = Some ids ->
      accounting_source W "getAccounts" = Some source ->
      let probe := Xero_accounting "getAccounts" [hd JUndefined ids] in
      testConnection W s
      = (Ok (match respond W (trace s) probe with
             | Ok _ => test_result true "Connection established successfully"
             | Throw _ => test_result false "Could not establish connection to Xero"
             end),
         {| this := this s; trace := trace s ++ [Remote probe] |})).
Proof.
  split; [|split].
  - unfold testConnection, call_accounting. run_eff.
    destruct (accountingApi (client (this s))); [|eauto 6].
    destruct (tenantIds (this s)); [|eauto 6].
    destruct (accounting_source W "getAccounts"); [|eauto 6].
    cbn [this trace].
    destruct (respond W (trace s) _); eauto 6.
  - intros Hclient.
    destruct (XeroProps.accountingApi_missing _ Hclient) as [base [_ Hmissing]].
    unfold testConnection. run_eff. rewrite Hmissing. reflexivity.
  - intros h ids source Hclient Hids Hsource probe. subst probe.
    unfold testConnection, call_accounting. run_eff.
    rewrite Hclient, Hids. cbn [accountingApi]. rewrite Hsource.
    cbn [this trace]. destruct (respond W (trace s) _); reflexivity.
Qed.

Lemma xero_testConnection_outcomes_witness :
  testConnection sample_world disconnected_xero
  = (Ok (test_result false "Could not establish connection to Xero"), disconnected_xero)
  /\
  testConnection sample_world connected_xero
  = (Ok (test_result true "Connection established successfully"),
     {| this := this connected_xero;
        trace := [Remote (Xero_accounting "getAccounts" [JStr "t1"])] |}).
Proof.
  split.
  - apply (proj1 (proj2 (xero_testConnection_outcomes sample_world disconnected_xero))).
    left. reflexivity.
  - apply (proj2 (proj2 (xero_testConnection_outcomes sample_world connected_xero))
             xero_client [JStr "t1"; JStr "t2"; JStr "t3"] getAccounts_source
             eq_refl eq_refl eq_refl).
Defined.

Lemma split_on_prefix (api rest : string) :
  no_dot api = true ->
  split_on "." (api ++ "." ++ rest) = api :: split_on "." rest.
Proof.
  unfold no_dot. induction api as [|c api IH]; simpl.
  - reflexivity.
  - intros H. apply andb_prop in H. destruct H as [Hc Hrest].
    apply negb_true_iff in Hc. rewrite Hc.
    change (split_on "." (api ++ String "." rest))
      with (split_on "." (api ++ "." ++ rest)).
    now rewrite (IH Hrest).
Qed.

(** X18: [performAction] resolves the name before anything else.  A name
    whose first dotted part is not [accounting] throws
    [API <part> for Xero not found] whether or not a client is present; a
    name [accounting.<method>] whose method is not a function of the
    accounting API throws [Method <name>() for Xero not found] on a
    connected driver.  In both cases nothing is sent. *)
Theorem performAction_name_errors
        (W : World) (s : St XeroDriver) (params : JsValue) :
  (forall api rest,
      no_dot api = true ->
      api <> "accounting" ->
      performAction W (JStr api) params s
      = (Throw (Error ("API " ++ api ++ " for Xero not found")), s) /\
      performAction W (JStr (api ++ "." ++ rest)) params s
      = (Throw (Error ("API " ++ api ++ " for Xero not found")), s)) /\
  (forall h method,
      client (this s) = client_of h ->
      no_dot method = true ->
      accounting_source W method = None ->
      performAction W (JStr ("accounting." ++ method)) params s
      = (Throw (Error ("Method accounting." ++ method ++ "() for Xero not found")), s)).
Proof.
  split.
  - intros api rest Hdot Hapi.
    apply String.eqb_neq in Hapi.
    split; unfold performAction; run_eff; cbv beta iota delta [nullish ToString].
    + rewrite (XeroProps.split_on_no_dot _ Hdot). cbv beta iota delta [hd].
      now rewrite Hapi.
    + rewrite (split_on_prefix _ _ Hdot). cbv beta iota delta [hd].
      now rewrite Hapi.
  - intros h method Hclient Hdot Hsource.
    unfold performAction. run_eff. cbv beta iota delta [nullish ToString].
    rewrite XeroProps.split_on_accounting, (XeroProps.split_on_no_dot _ Hdot).
    cbv beta iota delta [hd tl]. rewrite String.eqb_refl, Hclient.
    cbv beta iota delta [accountingApi]. rewrite Hsource. reflexivity.
Qed.

Lemma performAction_name_errors_witness :
  performAction sample_world (JStr ("payroll" ++ "." ++ "getEmployees")) (JObj [])
                disconnected_xero
  = (Throw (Error "API payroll for Xero not found"), disconnected_xero) /\
  performAction sample_world (JStr ("accounting." ++ "getGhosts")) (JObj [])
                connected_xero
  = (Throw (Error "Method accounting.getGhosts() for Xero not found"), connected_xero).
Proof.
  split.
  - refine (proj2 (proj1 (performAction_name_errors sample_world disconnected_xero
                            (JObj []))
                     "payroll" "getEmployees" _ _)).
    + reflexivity.
    + discriminate.
  - apply (proj2 (performAction_name_errors sample_world connected_xero (JObj []))
             xero_client "getGhosts" eq_refl eq_refl eq_refl).
Defined.

(** X19: with a client and an empty tenant list, [performAction] on a
    method of the accounting API returns the empty mapping and sends
    nothing, whatever [params] is, [undefined] included. *)
Theorem performAction_no_tenants
        (W : World) (s : St XeroDriver) (h : XeroClient)
        (method source : string) (params : JsValue) :
  client (this s) = client_of h ->
  tenantIds (this s) = Some [] ->
  no_dot method = true ->
  accounting_source W method = Some source ->
  performAction W (JStr ("accounting." ++ method)) params s = (Ok (JObj []), s).
Proof.
  intros Hclient Hids Hdot Hsource.
  unfold performAction. run_eff. cbv beta iota delta [nullish ToString].
  rewrite XeroProps.split_on_accounting, (XeroProps.split_on_no_dot _ Hdot).
  cbv beta iota delta [hd tl]. rewrite String.eqb_refl, Hclient.
  cbv beta iota delta [accountingApi]. rewrite Hsource, Hids. reflexivity.
Qed.

Lemma performAction_no_tenants_witness :
  performAction sample_world (JStr ("accounting." ++ "getAccounts")) JUndefined
                {| this := xero_driver (client_of xero_client) (Some []); trace := [] |}
  = (Ok (JObj []),
     {| this := xero_driver (client_of xero_client) (Some []); trace := [] |}).
Proof.
  apply (performAction_no_tenants sample_world
           {| this := xero_driver (client_of xero_client) (Some []); trace := [] |}
           xero_client "getAccounts" getAccounts_source JUndefined
           eq_refl eq_refl eq_refl eq_refl).
Defined.

Lemma args_without_params (methodParams : list string) (params tenantId : JsValue)
      (p : string) :
  nullish params = true ->
  first_named_param methodParams = Some p ->
  mapM (fun param => if String.eqb param "xeroTenantId" then Ok tenantId
                     else get params param) methodParams
  = Throw (TypeError (read_message params p)).
Proof.
  intros Hparams. unfold first_named_param.
  induction methodParams as [|q rest IH]; simpl; [discriminate|].
  destruct (String.eqb q "xeroTenantId"); simpl.
  - intros Hfind. now rewrite (IH Hfind).
  - intros [= ->]. destruct params; try discriminate Hparams; reflexivity.
Qed.

(** X20: with a client and at least one tenant, [performAction] called
    with [params] null or undefined, on a method whose source text shows a
    parameter other than [xeroTenantId], throws the TypeError of reading
    that parameter's name off [params], before any call is sent. *)
Theorem performAction_without_params
        (W : World) (s : St XeroDriver) (h : XeroClient)
        (tenantId : JsValue) (rest : list JsValue)
        (method source p : string) (params : JsValue) :
  client (this s) = client_of h ->
  tenantIds (this s) = Some (tenantId :: rest) ->
  no_dot method = true ->
  accounting_source W method = Some source ->
  nullish params = true ->
  first_named_param (methodParams_of source) = Some p ->
  performAction W (JStr ("accounting." ++ method)) params s
  = (Throw (TypeError (read_message params p)), s).
Proof.
  intros Hclient Hids Hdot Hsource Hparams Hp.
  unfold performAction. run_eff. cbv beta iota delta [nullish ToString].
  rewrite XeroProps.split_on_accounting, (XeroProps.split_on_no_dot _ Hdot).
  cbv beta iota delta [hd tl]. rewrite String.eqb_refl, Hclient.
  cbv beta iota delta [accountingApi]. rewrite Hsource, Hids.
  cbn [fan_out]. run_eff.
  rewrite (args_without_params _ _ tenantId p Hparams Hp). reflexivity.
Qed.

Lemma performAction_without_params_witness :
  performAction sample_world (JStr ("accounting." ++ "getAccounts")) JUndefined
                connected_xero
  = (Throw (TypeError "Cannot read properties of undefined (reading 'ifModifiedSince')"),
     connected_xero).
Proof.
  apply (performAction_without_params sample_world connected_xero xero_client
           (JStr "t1") [JStr "t2"; JStr "t3"] "getAccounts" getAccounts_source
           "ifModifiedSince" JUndefined
           eq_refl eq_refl eq_refl eq_refl eq_refl eq_refl).
Defined.

(** X21: when the call for the first tenant is rejected with [null] or
    [undefined], the [catch] itself fails: [performAction] throws the
    TypeError of reading [response] off that value, after that single
    call, and no other tenant is called. *)
Theorem performAction_nullish_rejection_aborts
        (W : World) (s : St XeroDriver) (h : XeroClient)
        (tenantId : JsValue) (rest : list JsValue)
        (method source : string) (params e : JsValue) :
  client (this s) = client_of h ->
  tenantIds (this s) = Some (tenantId :: rest) ->
  no_dot method = true ->
  accounting_source W method = Some source ->
  nullish params = false ->
  let call := tenant_call method (methodParams_of source) params tenantId in
  respond W (trace s) call = Throw e ->
  nullish e = true ->
  performAction W (JStr ("accounting." ++ method)) params s
  = (Throw (TypeError (read_message e "response")),
     {| this := this s; trace := trace s ++ [Remote call] |}).
Proof.
  intros Hclient Hids Hdot Hsource Hparams call Hrespond He. subst call.
  unfold performAction. run_eff. cbv beta iota delta [nullish ToString].
  rewrite XeroProps.split_on_accounting, (XeroProps.split_on_no_dot _ Hdot).
  cbv beta iota delta [hd tl]. rewrite String.eqb_refl, Hclient.
  cbv beta iota delta [accountingApi]. rewrite Hsource, Hids.
  cbn [fan_out]. unfold call_accounting. run_eff.
  rewrite (XeroProps.args_for_ok _ _ tenantId Hparams), Hclient.
  cbv beta iota delta [accountingApi]. rewrite Hsource.
  cbn [this trace]. unfold tenant_call in Hrespond. rewrite Hrespond.
  destruct e; try discriminate He; reflexivity.
Qed.

Lemma performAction_nullish_rejection_aborts_witness :
  performAction rejects_with_undefined (JStr ("accounting." ++ "getAccounts"))
                (JObj []) connected_xero
  = (Throw (TypeError "Cannot read properties of undefined (reading 'response')"),
     {| this := this connected_xero;
        trace := [Remote (tenant_call "getAccounts"
                                      (methodParams_of getAccounts_source)
                                      (JObj []) (JStr "t1"))] |}).
Proof.
  apply (performAction_nullish_rejection_aborts rejects_with_undefined connected_xero
           xero_client (JStr "t1") [JStr "t2"; JStr "t3"] "getAccounts"
           getAccounts_source (JObj []) JUndefined
           eq_refl eq_refl eq_refl eq_refl eq_refl eq_refl eq_refl).
Defined.

Lemma list_ascii_app (a b : string) :
  list_ascii_of_string (a ++ b)
  = (list_ascii_of_string a ++ list_ascii_of_string b)%list.
Proof.
  induction a as [|c a IH]; simpl; [reflexivity | now rewrite IH].
Qed.

Lemma until_close_args (args rest : list ascii) :
  forallb (fun x => negb (Ascii.eqb x ")")) args = true ->
  forallb (fun x => negb (is_line_terminator x)) args = true ->
  until_close (args ++ ")"%char :: rest) = Some args.
Proof.
  induction args as [|c args IH]; simpl; intros Hclose Hline.
  - reflexivity.
  - apply andb_prop in Hclose. destruct Hclose as [Hc Hclose].
    apply andb_prop in Hline. destruct Hline as [Hl Hline].
    apply negb_true_iff in Hc. apply negb_true_iff in Hl.
    rewrite Hc, Hl, (IH Hclose Hline). reflexivity.
Qed.

Lemma match_signature_skip (pre rest : list ascii) :
  forallb (fun x => negb (Ascii.eqb x "(")) pre = true ->
  match_signature (pre ++ rest) = match_signature rest.
Proof.
  induction pre as [|c pre IH]; simpl; intros Hopen.
  - reflexivity.
  - apply andb_prop in Hopen. destruct Hopen as [Hc Hopen].
    apply negb_true_iff in Hc. rewrite Hc. now apply IH.
Qed.

(** X22: for a source text whose first opening parenthesis is followed, on
    the same line, by a parameter list free of closing parentheses and
    then a closing parenthesis, the inferred parameter names are the
    comma-separated parts of that list, each trimmed; whatever follows
    plays no part.  An empty list gives one name, the empty string. *)
Theorem methodParams_of_signature (pre args post : string) :
  no_char "(" pre = true ->
  no_char ")" args = true ->
  one_line args = true ->
  methodParams_of (pre ++ "(" ++ args ++ ")" ++ post) = map trim (split_on "," args).
Proof.
  unfold no_char, one_line. intros Hpre Hargs Hline.
  unfold methodParams_of.
  rewrite list_ascii_app, (match_signature_skip _ _ Hpre).
  change (list_ascii_of_string ("(" ++ args ++ ")" ++ post))
    with ("("%char :: list_ascii_of_string (args ++ ")" ++ post)).
  cbn [match_signature]. rewrite Ascii.eqb_refl, list_ascii_app.
  change (list_ascii_of_string (")" ++ post))
    with (")"%char :: list_ascii_of_string post).
  rewrite (until_close_args _ _ Hargs Hline), string_of_list_ascii_of_string.
  reflexivity.
Qed.

Lemma methodParams_of_signature_witness :
  methodParams_of ("getAccounts" ++ "(" ++ "xeroTenantId, where , order" ++ ")"
                     ++ " { return this.request(); }")
  = map trim (split_on "," "xeroTenantId, where , order") /\
  methodParams_of ("getOrganisations" ++ "(" ++ EmptyString ++ ")" ++ " {}")
  = [EmptyString].
Proof.
  split.
  - apply (methodParams_of_signature "getAccounts" "xeroTenantId, where , order"
             " { return this.request(); }"); reflexivity.
  - apply (methodParams_of_signature "getOrganisations" EmptyString " {}");
      reflexivity.
Defined.

(** X23: [performAction] and [testConnection] of the Xero driver never
    change the driver object: client and tenant list are what they were,
    whatever is returned or thrown. *)
Theorem xero_actions_keep_driver (W : World) (prop params : JsValue) :
  keeps_driver (performAction W prop params) /\
  keeps_driver (testConnection W).
Proof.
  assert (Hcall : forall name args, keeps_driver (call_accounting W name args)).
  { intros name args. unfold call_accounting. keeps_steps. }
  assert (Hfan : forall method methodParams ids responses,
             keeps_driver (fan_out W method methodParams params ids responses)).
  { intros method methodParams ids.
    induction ids as [|tenantId rest IH]; intros responses; simpl.
    - apply keeps_ret.
    - apply keeps_bind; [apply keeps_lift | intros args].
      apply keeps_bind; [|intros entry; apply IH].
      apply keeps_try_catch; [|intros err; apply keeps_lift].
      apply keeps_bind; [apply Hcall | intros result; apply keeps_lift]. }
  split.
  - unfold performAction. keeps_steps. apply Hfan.
  - unfold testConnection. keeps_steps. apply Hcall.
Qed.

End XeroMore.

(** ** More on the Xero proxy *)

Module XeroProxyMore.
Import Xero Vocabulary.

(** X24: a call through the Xero proxy to a member other than [connect],
    [disconnect] and [testConnection] that returns leaves the driver
    disconnected: the client is [null] and the tenant list empty. *)
Theorem proxy_action_return_disconnects
        (W : World) (config : JsValue) (prop : string) (payload params r : JsValue)
        (s s' : St XeroDriver) :
  ~ In prop ["connect"; "disconnect"; "testConnection"] ->
  proxy_fn W config prop payload params s = (Ok r, s') ->
  client (this s') = client_null /\ tenantIds (this s') = Some [].
Proof.
  intros Hprop. unfold proxy_fn.
  destruct (String.eqb_spec prop "connect") as [->|_]; [elim Hprop; simpl; tauto|].
  destruct (String.eqb_spec prop "disconnect") as [->|_]; [elim Hprop; simpl; tauto|].
  destruct (String.eqb_spec prop "testConnection") as [->|_];
    [elim Hprop; simpl; tauto|].
  unfold lifecycle. run_eff.
  destruct (connect W (or_else config payload) _) as [[u|e] s1]; [|discriminate].
  destruct (performAction W payload params _) as [[r0|e] s2]; [|discriminate].
  unfold disconnect. run_eff. intros [= _ <-]. split; reflexivity.
Qed.

Lemma proxy_action_return_disconnects_witness :
  client (this (snd (proxy_fn sample_world xero_config "performAction"
                              (JStr "accounting.getAccounts") (JObj [])
                              disconnected_xero)))
  = client_null /\
  tenantIds (this (snd (proxy_fn sample_world xero_config "performAction"
                                 (JStr "accounting.getAccounts") (JObj [])
                                 disconnected_xero)))
  = Some [].
Proof.
  refine (proxy_action_return_disconnects sample_world xero_config "performAction"
            (JStr "accounting.getAccounts") (JObj [])
            (JObj [("t1", JStr "accounts"); ("t2", JStr "accounts");
                   ("t3", JStr "accounts")])
            disconnected_xero _ _ _).
  - simpl. intuition discriminate.
  - reflexivity.
Defined.

(** X25: when the configuration given to [getProxyDriver] is truthy but
    has no [oauth2] member, every action called through the proxy fails at
    connect, whatever the payload: the TypeError of reading [redirectUri]
    off [undefined] is logged once and thrown, [performAction] is never
    called, and the driver is untouched. *)
Theorem proxy_action_needs_oauth2
        (W : World) (config payload params : JsValue) (s : St XeroDriver) :
  truthy config = true ->
  get config "oauth2" = Ok JUndefined ->
  let e := TypeError "Cannot read properties of undefined (reading 'redirectUri')" in
  proxy_fn W config "performAction" payload params s
  = (Throw e, logged e (called "connect" [config] s)).
Proof.
  intros Hconfig Hoauth e. subst e.
  assert (Hobject : nullish config = false).
  { destruct config; try reflexivity; discriminate Hconfig. }
  unfold proxy_fn. cbn [String.eqb Ascii.eqb Bool.eqb].
  unfold lifecycle, or_else. rewrite Hconfig.
  unfold connect. run_eff. cbn [this trace].
  destruct (get_total config "XERO_CLIENT_ID" Hobject) as [id ->].
  destruct (get_total config "XERO_CLIENT_SECRET" Hobject) as [secret ->].
  rewrite Hoauth. reflexivity.
Qed.

Lemma proxy_action_needs_oauth2_witness :
  proxy_fn sample_world (JObj [("XERO_CLIENT_ID", JStr "id")]) "performAction"
           (JStr "accounting.getAccounts") (JObj []) disconnected_xero
  = (Throw (TypeError "Cannot read properties of undefined (reading 'redirectUri')"),
     logged (TypeError "Cannot read properties of undefined (reading 'redirectUri')")
            (called "connect" [JObj [("XERO_CLIENT_ID", JStr "id")]]
                    disconnected_xero)).
Proof.
  apply (proxy_action_needs_oauth2 sample_world (JObj [("XERO_CLIENT_ID", JStr "id")])
           (JStr "accounting.getAccounts") (JObj []) disconnected_xero
           eq_refl eq_refl).
Defined.

End XeroProxyMore.
